(** * objectdb: the entity model, typed references and the MongoDB backend

    A shallow embedding of [src/objectdb/database.py] and
    [src/objectdb/backends/mongodb.py].

    Python objects are Rocq values, Python exceptions are the [Raise] branch of
    [result], and the remote database is an explicit state threaded through the
    monad [M].  The awaited calls of the backend are sequential, so [await] is
    plain sequencing.

    The libraries the code calls (bson, pydantic, pymongo) are modelled by
    what they do on the values the code hands them; every such definition
    says so in its comment.  The server is taken to be reachable
    and to accept every document: connection failures and size limits are
    outside this development. *)

From Stdlib Require Import ZArith NArith Strings.Byte Strings.Ascii.
From stdpp Require Import base gmap strings list fin_maps.

#[global] Instance byte_eq_dec : EqDecision byte := Byte.byte_eq_dec.
#[global] Instance byte_countable : Countable byte :=
  inj_countable Byte.to_N Byte.of_N Byte.of_to_N.

(** ** Exceptions and results *)

(** The exception classes that the two modules raise or let through:
    [UnknownEntityError] is defined in database.py, [ValidationError] is
    pydantic's, [InvalidId] and [InvalidDocument] are bson's, the others are
    Python built-ins. *)
Inductive exn :=
  | UnknownEntityError
  | ValidationError
  | ValueError
  | TypeError
  | NotImplementedError
  | InvalidId
  | InvalidDocument.

#[global] Instance exn_eq_dec : EqDecision exn.
Proof. solve_decision. Defined.

Inductive result (A : Type) :=
  | Ok (a : A)
  | Raise (e : exn).
Arguments Ok {A} a.
Arguments Raise {A} e.

#[global] Instance result_ret : MRet result := @Ok.
#[global] Instance result_bind : MBind result := λ A B f r,
  match r with
  | Ok a => f a
  | Raise e => Raise e
  end.
#[global] Instance result_fmap : FMap result := λ A B f r,
  match r with
  | Ok a => Ok (f a)
  | Raise e => Raise e
  end.

(** ** Identifiers: bson's [ObjectId] *)

(** An [ObjectId] wraps the bytes of its private [__id] attribute, read
    through the [binary] property. *)
Record ObjectId := mkObjectId { binary : list byte }.

#[global] Instance ObjectId_eq_dec : EqDecision ObjectId.
Proof. solve_decision. Defined.
#[global] Instance ObjectId_countable : Countable ObjectId :=
  inj_countable' binary mkObjectId
    (λ o, match o with mkObjectId b => eq_refl end).

(** ** Values held by entity fields and by stored documents *)

(** What a data field, a filter and a stored document hold here: a [str],
    the type of every data field and filter value in the code and its
    tests, or an [ObjectId].  pydantic and BSON carry both unchanged. *)
Inductive value :=
  | VStr (s : string)
  | VOid (o : ObjectId).

#[global] Instance value_eq_dec : EqDecision value.
Proof. solve_decision. Defined.

(** Python's [a == b] on these scalars.  Across types both [__eq__] calls
    answer [NotImplemented] ([ObjectId.__eq__] does so for anything that is
    not an [ObjectId]), and Python falls back to identity, which is false for
    two distinct objects. *)
Definition py_eq (a b : value) : bool :=
  match a, b with
  | VStr s, VStr t => bool_decide (s = t)
  | VOid o, VOid p => bool_decide (binary o = binary p)
  | _, _ => false
  end.

(** ** Classes *)

(** A subclass of [DatabaseItem] whose data fields are all declared
    [str], as [User] and [Customer] of the tests are (classes that also
    declare reference fields, as [Product] does, are [model_class] further
    down).  Python compares classes by identity: [class_id] stands for the
    class object, [__name__] is what the backend names the collection after
    (two classes may share it), [ancestors] lists the ids of the proper
    superclasses below [DatabaseItem], and [model_fields] names the
    declared data fields (inherited ones included, the [identifier] field
    left out). *)
Record pyclass := {
  class_id : positive;
  __name__ : string;
  ancestors : list positive;
  model_fields : list string
}.

(** [c1 == c2] on class objects ([type.__eq__] is identity). *)
Definition class_eq (c1 c2 : pyclass) : bool :=
  bool_decide (class_id c1 = class_id c2).

(** [issubclass(c, target)]. *)
Definition issubclass (c target : pyclass) : bool :=
  class_eq c target || bool_decide (class_id target ∈ ancestors c).

(** ** Entities and references *)

(** An instance of a [DatabaseItem] subclass: its class, its [identifier]
    and the instance dictionary of its data fields. *)
Record DatabaseItem := {
  type : pyclass;
  identifier : ObjectId;
  fields : gmap string value
}.

(** [ForeignKey(target_type, identifier)].  The constructor stores what it
    is given: [identifier] is annotated [str] but nothing converts it, so the
    attribute holds whichever scalar the caller passed. *)
Record ForeignKey := {
  target_type : pyclass;
  fk_identifier : value
}.

(** The Python objects that reach the validators of this module. *)
Inductive pyobj :=
  | PVal (v : value)
  | PInt (n : Z)
  | PBytes (b : list byte)
  | PItem (e : DatabaseItem)
  | PFk (k : ForeignKey).

(** [bool(x)]: strings and bytes are truthy when not empty, ints when not
    zero; [ObjectId], pydantic models and [ForeignKey] define neither
    [__bool__] nor [__len__], so their instances are always truthy. *)
Definition truthy (x : pyobj) : bool :=
  match x with
  | PVal (VStr s) => negb (bool_decide (s = EmptyString))
  | PInt n => negb (bool_decide (n = 0%Z))
  | PVal (VOid _) => true
  | PBytes b => negb (bool_decide (b = []))
  | PItem _ => true
  | PFk _ => true
  end.

(** The result of a rich comparison method: a [bool] or [NotImplemented]. *)
Inductive eq_result :=
  | Bool (b : bool)
  | NotImplemented.

(** ** Hexadecimal text *)

(** The value of one hexadecimal digit, in either case. *)
Definition hex_digit_value (c : ascii) : option N :=
  let n := N_of_ascii c in
  if ((48 <=? n) && (n <=? 57))%N then Some (n - 48)%N
  else if ((97 <=? n) && (n <=? 102))%N then Some (n - 87)%N
  else if ((65 <=? n) && (n <=? 70))%N then Some (n - 55)%N
  else None.

(** The lower-case digit of a value below sixteen. *)
Definition hex_digit (n : N) : ascii :=
  if (n <? 10)%N then ascii_of_N (48 + n) else ascii_of_N (87 + n).

(** ASCII whitespace: tab, line feed, vertical tab, form feed, carriage
    return and space. *)
Definition is_space (c : ascii) : bool :=
  let n := N_of_ascii c in
  ((9 <=? n) && (n <=? 13) || (n =? 32))%N.

(** Python's [bytes.fromhex]: two hexadecimal digits per byte, most
    significant first; ASCII whitespace in front of a byte is skipped,
    whitespace between the two digits of a byte is not.  [None] stands for
    the [ValueError] it raises. *)
Fixpoint fromhex (s : string) : option (list byte) :=
  match s with
  | EmptyString => Some []
  | String a rest =>
      if is_space a then fromhex rest
      else
        match rest with
        | EmptyString => None
        | String b rest' =>
            hi ← hex_digit_value a;
            lo ← hex_digit_value b;
            x ← Byte.of_N (16 * hi + lo);
            (x ::.) <$> fromhex rest'
        end
  end.

Fixpoint encode_hex (b : list byte) : string :=
  match b with
  | [] => EmptyString
  | x :: rest =>
      String (hex_digit (Byte.to_N x / 16))
        (String (hex_digit (Byte.to_N x mod 16)) (encode_hex rest))
  end.






Module ObjectId.

(** bson's [ObjectId(oid)] for an argument the caller supplies: twelve
    bytes are taken as they are and another [ObjectId] is copied; a [str]
    must have 24 characters and is then read with [bytes.fromhex], whatever
    number of bytes that gives, and raises [InvalidId] otherwise; anything
    else, [bytes] of another length included, raises [TypeError]. *)
Definition __init__ (oid : pyobj) : result ObjectId :=
  match oid with
  | PBytes b =>
      if bool_decide (length b = 12) then Ok (mkObjectId b) else Raise TypeError
  | PVal (VStr s) =>
      if bool_decide (String.length s = 24) then
        match fromhex s with
        | Some b => Ok (mkObjectId b)
        | None => Raise InvalidId
        end
      else Raise InvalidId
  | PVal (VOid o) => Ok (mkObjectId (binary o))
  | _ => Raise TypeError
  end.

(** [ObjectId.is_valid(oid)]: false for a falsy argument, otherwise whether
    the constructor accepts it ([InvalidId] and [TypeError] are caught). *)
Definition is_valid (oid : pyobj) : bool :=
  if negb (truthy oid) then false
  else
    match __init__ oid with
    | Ok _ => true
    | Raise _ => false
    end.

(** [isinstance(v, ObjectId)]. *)
Definition isinstance (v : pyobj) : bool :=
  match v with
  | PVal (VOid _) => true
  | _ => false
  end.

(** [str(oid)]: two lower-case hex digits for each byte. *)
Definition __str__ (o : ObjectId) : string := encode_hex (binary o).

(** [ObjectId.__eq__]: the bytes are compared when [other] is an
    [ObjectId]; anything else gets [NotImplemented]. *)
Definition __eq__ (self : ObjectId) (other : pyobj) : eq_result :=
  match other with
  | PVal (VOid o) => Bool (bool_decide (binary self = binary o))
  | _ => NotImplemented
  end.

End ObjectId.

Module PyObjectId.

(** [PyObjectId.validate(v)], database.py lines 80-87. *)
Definition validate (v : pyobj) : result ObjectId :=
  if ObjectId.isinstance v then ObjectId.__init__ v
  else if negb (ObjectId.is_valid v) then Raise ValueError
  else ObjectId.__init__ v.

End PyObjectId.

Module ForeignKey.

(** [ForeignKey.__eq__], database.py lines 23-28. *)
Definition __eq__ (self : ForeignKey) (other : pyobj) : bool :=
  match other with
  | PFk other =>
      class_eq (target_type self) (target_type other)
      && py_eq (fk_identifier self) (fk_identifier other)
  | _ => false
  end.

(** The three [isinstance] tests of the validator, each yielding the value
    at the tested type. *)
Definition as_ForeignKey (v : pyobj) : option ForeignKey :=
  match v with
  | PFk k => Some k
  | _ => None
  end.

Definition as_instance (target : pyclass) (v : pyobj) : option DatabaseItem :=
  match v with
  | PItem e => if issubclass (type e) target then Some e else None
  | _ => None
  end.

Definition as_str (v : pyobj) : option string :=
  match v with
  | PVal (VStr s) => Some s
  | _ => None
  end.

(** The validator that [ForeignKey[target_type]] installs, database.py
    lines 46-53. *)
Definition validator (target_type : pyclass) (v : pyobj) : result ForeignKey :=
  match as_ForeignKey v with
  | Some k => Ok k
  | None =>
      match as_instance target_type v with
      | Some e =>
          Ok {| target_type := target_type;
                fk_identifier := VOid (identifier e) |}
      | None =>
          match as_str v with
          | Some s => Ok {| target_type := target_type; fk_identifier := VStr s |}
          | None => Raise TypeError
          end
      end
  end.

Definition as_bytes (v : pyobj) : option (list byte) :=
  match v with
  | PBytes b => Some b
  | _ => None
  end.

Section Schema.

(** pydantic's lax reading of [bytes] as a [str]: the UTF-8 decoding,
    [None] when the bytes are not valid UTF-8. *)
Variable bytes_to_str : list byte → option string.

(** The union schema of database.py lines 57-63, which sees the value
    first: an instance of the target type, a [str] and a [ForeignKey] pass
    as they are, [bytes] pass as the [str] they are read as, and pydantic
    refuses everything else with its [ValidationError]. *)
Definition union_schema (target_type : pyclass) (v : pyobj) : result pyobj :=
  match as_instance target_type v, as_str v, as_ForeignKey v with
  | Some _, _, _ => Ok v
  | None, Some _, _ => Ok v
  | None, None, Some _ => Ok v
  | None, None, None =>
      match as_bytes v ≫= bytes_to_str with
      | Some s => Ok (PVal (VStr s))
      | None => Raise ValidationError
      end
  end.

(** The schema that [__get_pydantic_core_schema__] returns, database.py
    lines 55-64, run on a value: the union, then the validator on what the
    union let through.  This is how a field declared
    [ForeignKey[target_type]] is built from what it is given. *)
Definition core_schema (target_type : pyclass) (v : pyobj) : result ForeignKey :=
  v' ← union_schema target_type v;
  validator target_type v'.

End Schema.

Section Hash.

(** Python's built-in [hash] on the objects a reference holds: on a class
    object (by identity), on [str], on [bytes] (which [ObjectId.__hash__]
    applies to the identifier's bytes), and on a pair, computed from the
    hashes of its two items. *)
Variable hash_type : positive → Z.
Variable hash_str : string → Z.
Variable hash_bytes : list byte → Z.
Variable hash_pair : Z → Z → Z.

Definition hash_value (v : value) : Z :=
  match v with
  | VStr s => hash_str s
  | VOid o => hash_bytes (binary o)
  end.

(** [ForeignKey.__hash__], database.py lines 30-31. *)
Definition __hash__ (self : ForeignKey) : Z :=
  hash_pair (hash_type (class_id (target_type self)))
            (hash_value (fk_identifier self)).

End Hash.

(** How an f-string renders the stored identifier: a [str] as it is, an
    [ObjectId] through [str]. *)
Definition format_value (v : value) : string :=
  match v with
  | VStr s => s
  | VOid o => ObjectId.__str__ o
  end.

(** [ForeignKey.__repr__], database.py lines 33-34. *)
Definition __repr__ (self : ForeignKey) : string :=
  "ForeignKey(" +:+ __name__ (target_type self) +:+ ":"
    +:+ format_value (fk_identifier self) +:+ ")".

End ForeignKey.

(** ** Stored documents *)

(** A document as the driver returns it: MongoDB gives every document an
    [_id], here always an [ObjectId]; [body] holds the other keys. *)
Record document := {
  _id : ObjectId;
  body : gmap string value
}.

(** The Python [dict] the driver hands over. *)
Definition to_dict (d : document) : gmap string value :=
  <["_id" := VOid (_id d)]> (body d).

(** [bool(d)] for a [dict]: whether it has an entry. *)
Definition dict_truthy (d : gmap string value) : bool :=
  negb (bool_decide (d = ∅)).

Module DatabaseItem.

(** [DatabaseItem.__eq__], database.py lines 96-99. *)
Definition __eq__ (self : DatabaseItem) (other : pyobj) : eq_result :=
  match other with
  | PItem other => Bool (py_eq (VOid (identifier self)) (VOid (identifier other)))
  | _ => NotImplemented
  end.

Section Hash.

(** Python's built-in [hash] on [bytes], which [ObjectId.__hash__] applies
    to the identifier's bytes. *)
Variable hash_bytes : list byte → Z.

(** [DatabaseItem.__hash__], database.py lines 101-102. *)
Definition __hash__ (self : DatabaseItem) : Z :=
  hash_bytes (binary (identifier self)).

End Hash.

(** pydantic's check of a value against the declared type [str]: a [str]
    passes unchanged, an [ObjectId] is refused. *)
Definition conforms (v : value) : bool :=
  match v with
  | VStr _ => true
  | VOid _ => false
  end.

Definition field_ok (d : gmap string value) (k : string) : bool :=
  match d !! k with
  | Some v => conforms v
  | None => false
  end.

(** Every declared data field is present with a value of its type. *)
Definition fields_ok (cls : pyclass) (d : gmap string value) : bool :=
  forallb (field_ok d) (model_fields cls).

(** What [update] checks before it writes: the entity is valid when its
    own attributes pass that check. *)
Definition valid (item : DatabaseItem) : bool :=
  fields_ok (type item) (fields item).

(** The entries of [d] under declared field names (pydantic ignores the
    other keys of its input). *)
Definition declared_part (cls : pyclass) (d : gmap string value)
  : gmap string value :=
  filter (λ kv, kv.1 ∈ model_fields cls) d.

(** [cls.model_validate(res)] on a document of the store: the identifier is
    read from [_id] ([PyObjectId.validate] copies an [ObjectId]), the data
    fields from the other keys (pydantic refuses field names that start with
    an underscore, so no data field is called [_id]); a missing or ill-typed
    field raises [ValidationError]. *)
Definition model_validate (cls : pyclass) (res : document) : result DatabaseItem :=
  if fields_ok cls (body res) then
    Ok {| type := cls; identifier := _id res;
          fields := declared_part cls (body res) |}
  else Raise ValidationError.

(** [item.model_validate(item)]: with [revalidate_instances="always"] the
    instance's own attributes are validated again, into a new instance. *)
Definition model_validate_instance (item : DatabaseItem) : result DatabaseItem :=
  if valid item then
    Ok {| type := type item; identifier := identifier item;
          fields := declared_part (type item) (fields item) |}
  else Raise ValidationError.

(** [item.model_dump(by_alias=True, exclude={"_id"})]: the declared data
    fields by name.  The identifier is left out as the call intends; the
    update below filters on [_id] with the same identifier, so the stored
    document is the same whether or not the dump carries it. *)
Definition model_dump (item : DatabaseItem) : gmap string value :=
  declared_part (type item) (fields item).

(** [item.model_dump(by_alias=True)]: every field of the entity under its
    wire name, the identifier under [_id]. *)
Definition model_dump_by_alias (item : DatabaseItem) : gmap string value :=
  <["_id" := VOid (identifier item)]> (model_dump item).

End DatabaseItem.

(** ** The database behind the driver *)

(** The state of one MongoDB database: the body of every stored document,
    under the name of its collection and its [_id] (which MongoDB keeps
    unique within a collection). *)
Abbreviation database := (gmap (string * ObjectId) (gmap string value)).

(** A computation against the database: it ends with a value or an
    exception, and leaves a database state behind. *)
Definition M (A : Type) : Type := database → result A * database.

#[global] Instance M_ret : MRet M := λ A a st, (Ok a, st).
#[global] Instance M_bind : MBind M := λ A B f m st,
  match m st with
  | (Ok a, st') => f a st'
  | (Raise e, st') => (Raise e, st')
  end.

Definition raise {A : Type} (e : exn) : M A := λ st, (Raise e, st).

(** A pure step that may raise. *)
Definition lift {A : Type} (r : result A) : M A := λ st, (r, st).

(** The documents of the collection [name], in the order the server lists
    them. *)
Definition stored (st : database) (name : string) : list document :=
  omap (λ kv, if decide (kv.1.1 = name)
              then Some {| _id := kv.1.2; body := kv.2 |} else None)
       (map_to_list st).

(** An equality filter matches a document that holds every key of the
    filter with an equal value. *)
Definition select (st : database) (name : string) (flt : gmap string value)
  : list document :=
  filter (λ d, flt ⊆ to_dict d) (stored st name).

(** A cursor is the query it will run; [find] builds it without talking to
    the server. *)
Record cursor := {
  cursor_collection : string;
  cursor_filter : gmap string value
}.

(** [bool(cursor)]: the cursor class has neither [__bool__] nor [__len__],
    so the object is truthy whatever the query would return. *)
Definition cursor_truthy (c : cursor) : bool := true.

(** pymongo's collection methods, as far as the backend calls them; the
    collection handle [self.database[name]] is its name. *)
Module AsyncCollection.

(** [update_one(filter={"_id": i}, update={"$set": upd}, upsert=True)]:
    the keys of [upd] are set in the document with that [_id], the other
    keys of the document stay; without such a document one is inserted
    under [i] with the keys of [upd]. *)
Definition update_one (name : string) (i : ObjectId) (upd : gmap string value)
  : M unit :=
  λ st, (Ok (), <[(name, i) := upd ∪ default ∅ (st !! (name, i))]> st).

(** [find_one(filter=flt)]: the first matching document, or [None]. *)
Definition find_one (name : string) (flt : gmap string value)
  : M (option document) :=
  λ st, (Ok (head (select st name flt)), st).

(** [delete_one(filter={"_id": i})], returning [result.deleted_count]. *)
Definition delete_one (name : string) (i : ObjectId) : M nat :=
  λ st,
    match st !! (name, i) with
    | Some _ => (Ok 1, delete (name, i) st)
    | None => (Ok 0, st)
    end.

(** [find(filter=flt)]. *)
Definition find (name : string) (flt : gmap string value) : cursor :=
  {| cursor_collection := name; cursor_filter := flt |}.

(** What iterating the cursor yields. *)
Definition fetch (c : cursor) : M (list document) :=
  λ st, (Ok (select st (cursor_collection c) (cursor_filter c)), st).

End AsyncCollection.

(** ** The backend: [MongoDBDatabase] *)

Module MongoDBDatabase.

(** [update], mongodb.py lines 18-26. *)
Definition update (item : DatabaseItem) : M unit :=
  let item_type := type item in
  _ ← lift (DatabaseItem.model_validate_instance item);
  AsyncCollection.update_one (__name__ item_type) (identifier item)
    (DatabaseItem.model_dump item).

(** [get], mongodb.py lines 28-32.  The walrus test is the truth value of
    what [find_one] returned: [None] is falsy, a [dict] is truthy when it is
    not empty. *)
Definition get (class_type : pyclass) (identifier : ObjectId) : M DatabaseItem :=
  let collection := __name__ class_type in
  res ← AsyncCollection.find_one collection {["_id" := VOid identifier]};
  match res with
  | Some res =>
      if dict_truthy (to_dict res)
      then lift (DatabaseItem.model_validate class_type res)
      else raise UnknownEntityError
  | None => raise UnknownEntityError
  end.

(** [get_all], mongodb.py lines 34-35. *)
Definition get_all (class_type : pyclass) : M (gmap string DatabaseItem) :=
  raise NotImplementedError.

(** [delete], mongodb.py lines 37-41; [cascade] is not looked at. *)
Definition delete (class_type : pyclass) (identifier : ObjectId)
    (cascade : bool) : M unit :=
  let collection := __name__ class_type in
  deleted_count ← AsyncCollection.delete_one collection identifier;
  if bool_decide (deleted_count ≠ 1) then raise UnknownEntityError
  else mret ().

(** The dict comprehension of [find]: each document in turn is validated
    and stored under its [_id]; the first that fails to validate raises. *)
Fixpoint comprehension (class_type : pyclass) (results : list document)
    (acc : gmap ObjectId DatabaseItem) : result (gmap ObjectId DatabaseItem) :=
  match results with
  | [] => Ok acc
  | res :: rest =>
      e ← DatabaseItem.model_validate class_type res;
      comprehension class_type rest (<[_id res := e]> acc)
  end.

(** [find], mongodb.py lines 43-47; [None] is the result [Ok None]. *)
Definition find (class_type : pyclass) (kwargs : gmap string value)
  : M (option (gmap ObjectId DatabaseItem)) :=
  let collection := __name__ class_type in
  let results := AsyncCollection.find collection kwargs in
  if cursor_truthy results then
    docs ← AsyncCollection.fetch results;
    found ← lift (comprehension class_type docs ∅);
    mret (Some found)
  else mret None.

(** [find_one], mongodb.py lines 49-54. *)
Definition find_one (class_type : pyclass) (kwargs : gmap string value)
  : M (option DatabaseItem) :=
  let collection := __name__ class_type in
  result ← AsyncCollection.find_one collection kwargs;
  match result with
  | Some res =>
      if dict_truthy (to_dict res)
      then e ← lift (DatabaseItem.model_validate class_type res); mret (Some e)
      else mret None
  | None => mret None
  end.

End MongoDBDatabase.

(** ** The contract: [Database] *)

(** The abstract class [Database], database.py lines 108-163: its six
    abstract methods are the fields of a class over the backend's monad, the
    router methods are defined from them once and for all. *)
Module Database.

Class Database (m : Type → Type) := {
  update : DatabaseItem → m unit;
  get : pyclass → ObjectId → m DatabaseItem;
  get_all : pyclass → m (gmap string DatabaseItem);
  delete : pyclass → ObjectId → bool → m unit;
  find : pyclass → gmap string value → m (option (gmap ObjectId DatabaseItem));
  find_one : pyclass → gmap string value → m (option DatabaseItem)
}.

Section router.
Context {m : Type → Type} `{!Database m}.




(** [list_items], database.py lines 150-153. *)
Definition list_items (class_type : pyclass) : m (gmap string DatabaseItem) :=
  get_all class_type.

(** [find_items], database.py lines 155-158. *)
Definition find_items (class_type : pyclass) (kwargs : gmap string value)
  : m (option (gmap ObjectId DatabaseItem)) :=
  find class_type kwargs.

(** [find_one_item], database.py lines 160-163. *)
Definition find_one_item (class_type : pyclass) (kwargs : gmap string value)
  : m (option DatabaseItem) :=
  find_one class_type kwargs.

End router.

End Database.

(** [MongoDBDatabase] is a [Database]. *)
#[global] Instance MongoDBDatabase_Database : Database.Database M := {|
  Database.update := MongoDBDatabase.update;
  Database.get := MongoDBDatabase.get;
  Database.get_all := MongoDBDatabase.get_all;
  Database.delete := MongoDBDatabase.delete;
  Database.find := MongoDBDatabase.find;
  Database.find_one := MongoDBDatabase.find_one
|}.

(** ** Entities with reference fields *)

(** What an attribute can hold once a class declares reference fields: a
    value that BSON carries, or a [ForeignKey] object. *)
Inductive attribute :=
  | AVal (v : value)
  | ARef (k : ForeignKey).

(** A subclass of [DatabaseItem] in general: the class with its [str]
    fields, and the fields it declares as [ForeignKey[target]], each with
    its target. *)
Record model_class := {
  plain : pyclass;
  foreign_keys : list (string * pyclass)
}.

(** An instance of such a class; [attributes] is the instance dictionary
    of its data fields. *)
Record model := {
  model_type : model_class;
  model_identifier : ObjectId;
  attributes : gmap string attribute
}.

Module WithReferences.

(** An attribute as the Python object it is. *)
Definition pyobj_of (a : attribute) : pyobj :=
  match a with
  | AVal v => PVal v
  | ARef k => PFk k
  end.

(** What BSON can encode of an attribute: a [ForeignKey] object is not
    among the types bson knows. *)
Definition as_value (a : attribute) : option value :=
  match a with
  | AVal v => Some v
  | ARef _ => None
  end.

(** An entity of a class without reference fields, as an instance of the
    general kind. *)
Definition of_item (item : DatabaseItem) : model :=
  {| model_type := {| plain := type item; foreign_keys := [] |};
     model_identifier := identifier item;
     attributes := AVal <$> fields item |}.

(** pydantic's check of the attribute of a field declared [str]. *)
Definition str_ok (d : gmap string attribute) (k : string) : bool :=
  match d !! k with
  | Some (AVal v) => DatabaseItem.conforms v
  | _ => false
  end.

(** pydantic's check of the attribute of a field declared
    [ForeignKey[target]]: the schema of that field accepts it.  An
    attribute is never [bytes], so how those would be read is of no
    account here. *)
Definition reference_ok (d : gmap string attribute) (fk : string * pyclass)
  : bool :=
  match d !! fk.1 with
  | Some a =>
      match ForeignKey.core_schema (λ _, None) fk.2 (pyobj_of a) with
      | Ok _ => true
      | Raise _ => false
      end
  | None => false
  end.

(** What [item.model_validate(item)] checks. *)
Definition valid (item : model) : bool :=
  forallb (str_ok (attributes item)) (model_fields (plain (model_type item)))
  && forallb (reference_ok (attributes item)) (foreign_keys (model_type item)).

(** [item.model_dump(by_alias=True, exclude={"_id"})]: in Python mode the
    dump holds what each declared field's attribute holds, a [ForeignKey]
    object included, as no serializer is declared for it. *)
Definition model_dump (item : model) : gmap string attribute :=
  filter (λ kv, kv.1 ∈ model_fields (plain (model_type item))
                ∨ kv.1 ∈ (foreign_keys (model_type item)).*1)
         (attributes item).

(** The driver encoding the [$set] document: bson raises
    [InvalidDocument] on a value it cannot encode. *)
Definition bson_encode (d : gmap string attribute) : result (gmap string value) :=
  if bool_decide (map_Forall (λ _ a, is_Some (as_value a)) d)
  then Ok (omap as_value d)
  else Raise InvalidDocument.

(** [MongoDBDatabase.update], mongodb.py lines 18-26, on an instance of
    the general kind. *)
Definition update (item : model) : M unit :=
  let item_type := model_type item in
  _ ← lift (if valid item then Ok () else Raise ValidationError);
  upd ← lift (bson_encode (model_dump item));
  AsyncCollection.update_one (__name__ (plain item_type))
    (model_identifier item) upd.

End WithReferences.

(** ** Collections that hold entities of one type *)

(** The collection named after [cls] holds entities of type [cls]: every
    stored body has a value of the declared type under each declared data
    field and no other key, which is what [update] writes for a valid
    entity of that type. *)
Definition stores_entities (st : database) (cls : pyclass) : Prop :=
  map_Forall (λ key b,
    key.1 = __name__ cls →
    DatabaseItem.fields_ok cls b = true ∧ DatabaseItem.declared_part cls b = b) st.

#[global] Instance stores_entities_dec st cls : Decision (stores_entities st cls).
Proof. unfold stores_entities. apply _. Defined.

(** The entity of type [cls] stored under [i], if there is one. *)
Definition stored_entity (st : database) (cls : pyclass) (i : ObjectId)
  : option DatabaseItem :=
  (λ b, {| type := cls; identifier := i; fields := b |})
    <$> st !! (__name__ cls, i).

(** ** The entities of the test suites *)

(** [User] of tests/test_database_mongodb.py and [Customer] of
    tests/test_database.py. *)
Definition User : pyclass :=
  {| class_id := 1; __name__ := "User"; ancestors := [];
     model_fields := ["name"; "email"] |}.

Definition Customer : pyclass :=
  {| class_id := 2; __name__ := "Customer"; ancestors := [];
     model_fields := ["name"; "city"] |}.

Definition oid_a : ObjectId :=
  mkObjectId [x65; x4f; x1a; x2b; x3c; x4d; x5e; x6f; x70; x81; x92; xa3].

Definition oid_b : ObjectId :=
  mkObjectId [x65; x4f; x1a; x2b; x3c; x4d; x5e; x6f; x70; x81; x92; xa4].

Definition eve : DatabaseItem :=
  {| type := User; identifier := oid_a;
     fields := {["name" := VStr "Eve"; "email" := VStr "eve@example.com"]} |}.

(** [eve] after [eve.email] was assigned a new address. *)
Definition eve_moved : DatabaseItem :=
  {| type := User; identifier := oid_a;
     fields := {["name" := VStr "Eve"; "email" := VStr "eve@example.org"]} |}.

Definition frank : DatabaseItem :=
  {| type := User; identifier := oid_b;
     fields := {["name" := VStr "Frank"; "email" := VStr "frank@example.com"]} |}.

Definition a_customer : DatabaseItem :=
  {| type := Customer; identifier := oid_a;
     fields := {["name" := VStr "name"; "city" := VStr "city"]} |}.

(** The two references to [a_customer] that the validator can build: one
    holding the identifier object, one holding its string. *)
Definition customer_ref_of_instance : ForeignKey :=
  {| target_type := Customer; fk_identifier := VOid oid_a |}.

Definition customer_ref_of_string : ForeignKey :=
  {| target_type := Customer;
     fk_identifier := VStr "654f1a2b3c4d5e6f708192a3" |}.




(** The value of the bytes as a big-endian number, a stand-in for Python's
    [hash] on [bytes] where an example needs one. *)
Definition sample_hash (b : list byte) : Z :=
  Z.of_N (foldl (λ acc x, 256 * acc + Byte.to_N x)%N 0%N b).


(** Stand-ins for Python's [hash] on class objects, [str] and pairs. *)
Definition sample_hash_type (c : positive) : Z := Z.pos c.

Definition sample_hash_str (s : string) : Z := Z.of_nat (String.length s).

Definition sample_hash_pair (a b : Z) : Z := (31 * a + b)%Z.

Definition oid_c : ObjectId :=
  mkObjectId [x65; x4f; x1a; x2b; x3c; x4d; x5e; x6f; x70; x81; x92; xa5].

(** A [User] collection as an older version of the class left it: [eve]
    with a [nickname] that [User] no longer declares, and a document
    without [email]. *)
Definition legacy_users : database :=
  {[ ("User", oid_a) :=
       {["name" := VStr "Eve"; "email" := VStr "eve@example.com";
         "nickname" := VStr "E"]};
     ("User", oid_c) := {["name" := VStr "Carol"]} ]}.

(** The database after [update(eve)] and [update(frank)] on an empty one. *)
Definition two_users : database :=
  {[ ("User", oid_a) := fields eve; ("User", oid_b) := fields frank ]}.

(** * Properties *)

(** ** The database model *)

Section store.
Implicit Types (st : database) (name : string) (d : document) (i : ObjectId).

Lemma document_eta d : {| _id := _id d; body := body d |} = d.
Proof. by destruct d. Qed.

Lemma elem_of_stored st name d :
  d ∈ stored st name ↔ st !! (name, _id d) = Some (body d).
Proof.
  unfold stored. rewrite list_elem_of_omap. split.
  - intros [[[n i] b] [Hin Hd]]. simpl in Hd.
    case_decide; [|done]. simplify_eq/=.
    by apply elem_of_map_to_list in Hin.
  - intros Hd. exists ((name, _id d), body d). split.
    + by apply elem_of_map_to_list.
    + simpl. rewrite decide_True by done. by rewrite document_eta.
Qed.

Lemma NoDup_stored_ids st name : NoDup (_id <$> stored st name).
Proof.
  unfold stored.
  pose proof (NoDup_fst_map_to_list st) as Hnd.
  induction (map_to_list st) as [|[[n i] b] l IH]; simpl; [constructor|].
  apply NoDup_cons in Hnd as [Hni Hnd].
  case_decide; simpl; [|by apply IH].
  apply NoDup_cons. split; [|by apply IH].
  intros Hin. apply Hni.
  apply list_elem_of_fmap in Hin as [d [Hi Hin]].
  apply list_elem_of_omap in Hin as [[[n' i'] b'] [Hin Hd]]. simpl in Hd.
  case_decide; [|done]. simplify_eq/=.
  change ((name, i') ∈ l.*1). apply list_elem_of_fmap.
  by exists (name, i', b').
Qed.

Lemma matches_id i d : {["_id" := VOid i]} ⊆ to_dict d ↔ _id d = i.
Proof.
  rewrite map_singleton_subseteq_l. unfold to_dict.
  rewrite lookup_insert_eq. split; [by intros [= ->]|by intros ->].
Qed.

Lemma filter_unique_id (l : list document) d :
  NoDup (_id <$> l) → d ∈ l →
  filter (λ d', {["_id" := VOid (_id d)]} ⊆ to_dict d') l = [d].
Proof.
  induction l as [|x l IH]; intros Hnd Hin; [by apply not_elem_of_nil in Hin|].
  simpl in Hnd. apply NoDup_cons in Hnd as [Hx Hnd].
  assert (Hnone : ∀ l' : list document, _id d ∉ _id <$> l' →
            filter (λ d', {["_id" := VOid (_id d)]} ⊆ to_dict d') l' = []).
  { intros l' Hl'. induction l' as [|y l' IH']; [done|].
    apply not_elem_of_cons in Hl' as [Hy Hl'].
    rewrite filter_cons_False; [by apply IH'|].
    rewrite matches_id. congruence. }
  apply elem_of_cons in Hin as [->|Hin].
  - rewrite filter_cons_True by by apply matches_id.
    by rewrite Hnone.
  - rewrite filter_cons_False; [by apply IH|].
    rewrite matches_id. intros Heq. apply Hx. rewrite Heq.
    by apply list_elem_of_fmap_2.
Qed.

Lemma select_by_id st name i :
  select st name {["_id" := VOid i]} =
    match st !! (name, i) with
    | Some b => [{| _id := i; body := b |}]
    | None => []
    end.
Proof.
  unfold select. destruct (st !! (name, i)) as [b|] eqn:Hi.
  - apply (filter_unique_id _ {| _id := i; body := b |}).
    + apply NoDup_stored_ids.
    + by apply elem_of_stored.
  - assert (Hall : Forall (λ d, _id d ≠ i) (stored st name)).
    { apply Forall_forall. intros d Hd Heq.
      apply elem_of_stored in Hd. rewrite Heq in Hd. congruence. }
    induction Hall as [|z l' Hz Hall IH]; [done|].
    rewrite filter_cons_False; [done|]. by rewrite matches_id.
Qed.

End store.

(** ** pydantic validation and dumps *)

Section pydantic.
Import DatabaseItem.
Implicit Types (cls : pyclass) (d : gmap string value) (k : string).

Lemma fields_ok_spec cls d :
  fields_ok cls d = true ↔
  ∀ k, k ∈ model_fields cls → ∃ v, d !! k = Some v ∧ conforms v = true.
Proof.
  unfold fields_ok. rewrite forallb_forall. split.
  - intros H k Hin. apply list_elem_of_In in Hin.
    specialize (H _ Hin). unfold field_ok in H.
    destruct (d !! k) as [v|]; [|done]. by exists v.
  - intros H k Hin. apply list_elem_of_In in Hin.
    destruct (H _ Hin) as (v & Hv & Hc).
    unfold field_ok. by rewrite Hv.
Qed.

Lemma fields_ok_lookup cls d k :
  fields_ok cls d = true → k ∈ model_fields cls →
  ∃ v, d !! k = Some v ∧ conforms v = true.
Proof. intros Hok. by apply (proj1 (fields_ok_spec cls d) Hok). Qed.

Lemma declared_part_lookup cls d k :
  declared_part cls d !! k =
    if decide (k ∈ model_fields cls) then d !! k else None.
Proof.
  unfold declared_part. case_decide as Hk.
  - destruct (d !! k) as [v|] eqn:Hv.
    + by apply map_lookup_filter_Some.
    + apply map_lookup_filter_None. left. done.
  - apply map_lookup_filter_None. right. intros v _. done.
Qed.

Lemma declared_part_declared cls d k :
  k ∈ model_fields cls → declared_part cls d !! k = d !! k.
Proof. intros Hin. by rewrite declared_part_lookup, decide_True. Qed.

Lemma fields_ok_agree cls d d' :
  (∀ k, k ∈ model_fields cls → d' !! k = d !! k) →
  fields_ok cls d = true → fields_ok cls d' = true.
Proof.
  rewrite !fields_ok_spec. intros Hagree H k Hin.
  rewrite (Hagree _ Hin). by apply H.
Qed.

(** A [$set] of the dump over any older body leaves exactly the dump under
    the declared names. *)
Lemma declared_part_set cls d old :
  fields_ok cls d = true →
  declared_part cls (declared_part cls d ∪ old) = declared_part cls d.
Proof.
  intros Hok. apply map_eq. intros k.
  rewrite !declared_part_lookup. case_decide as Hk; [|done].
  destruct (fields_ok_lookup _ _ _ Hok Hk) as (v & Hv & _).
  rewrite lookup_union_l'.
  - by rewrite declared_part_lookup, decide_True.
  - rewrite (declared_part_declared _ _ _ Hk). by rewrite Hv.
Qed.

Lemma fields_ok_set cls d old :
  fields_ok cls d = true → fields_ok cls (declared_part cls d ∪ old) = true.
Proof.
  intros Hok. apply (fields_ok_agree cls d); [|done].
  intros k Hin. destruct (fields_ok_lookup _ _ _ Hok Hin) as (v & Hv & _).
  rewrite lookup_union_l'; rewrite (declared_part_declared _ _ _ Hin);
    [done|by rewrite Hv].
Qed.

End pydantic.

(** ** The backend, operation by operation *)

Section backend.
Import MongoDBDatabase.
Implicit Types (st : database) (i : ObjectId) (class_type : pyclass).

Lemma to_dict_truthy d : dict_truthy (to_dict d) = true.
Proof.
  unfold dict_truthy, to_dict. rewrite bool_decide_false; [done|].
  apply insert_non_empty.
Qed.

(** [get] reads the document stored under the identifier and validates
    it; without one it raises [UnknownEntityError]. *)
Lemma get_unfold class_type i st :
  get class_type i st =
    match st !! (__name__ class_type, i) with
    | Some b =>
        (DatabaseItem.model_validate class_type {| _id := i; body := b |}, st)
    | None => (Raise UnknownEntityError, st)
    end.
Proof.
  unfold get, AsyncCollection.find_one, mbind, M_bind.
  rewrite select_by_id.
  destruct (st !! (__name__ class_type, i)) as [b|]; simpl; [|done].
  by rewrite to_dict_truthy.
Qed.

Lemma update_unfold (item : DatabaseItem) st :
  DatabaseItem.valid item = true →
  update item st =
    (Ok (), <[(__name__ (type item), identifier item) :=
               DatabaseItem.model_dump item
               ∪ default ∅ (st !! (__name__ (type item), identifier item))]> st).
Proof.
  intros Hv. unfold update, lift, mbind, M_bind,
    DatabaseItem.model_validate_instance. by rewrite Hv.
Qed.

(** An entity that does not validate is refused before anything is
    written. *)
Lemma update_invalid (item : DatabaseItem) st :
  DatabaseItem.valid item = false →
  update item st = (Raise ValidationError, st).
Proof.
  intros Hv. unfold update, lift, mbind, M_bind,
    DatabaseItem.model_validate_instance. by rewrite Hv.
Qed.

(** [update] touches the document of its entity and no other. *)
Lemma update_other (item : DatabaseItem) st st' name i :
  update item st = (Ok (), st') →
  (name, i) ≠ (__name__ (type item), identifier item) →
  st' !! (name, i) = st !! (name, i).
Proof.
  destruct (DatabaseItem.valid item) eqn:Hv.
  - rewrite update_unfold by done. intros [= <-] Hne.
    by rewrite lookup_insert_ne.
  - by rewrite update_invalid.
Qed.

(** The database of the examples is what the two updates of the test
    leave behind. *)
Lemma two_users_reached :
  (_ ← update eve; update frank) ∅ = (Ok (), two_users).
Proof.
  unfold mbind, M_bind. rewrite update_unfold by done. simpl.
  rewrite update_unfold by done. reflexivity.
Qed.

Lemma delete_unfold class_type i cascade st :
  delete class_type i cascade st =
    match st !! (__name__ class_type, i) with
    | Some _ => (Ok (), base.delete (__name__ class_type, i) st)
    | None => (Raise UnknownEntityError, st)
    end.
Proof.
  unfold delete, AsyncCollection.delete_one, mbind, M_bind.
  by destruct (st !! (__name__ class_type, i)).
Qed.

End backend.

(** ** Round trip, missing entities and deletion *)

(** On an entity of a class without reference fields, the general
    [update] is the [update] of the backend module. *)
Lemma update_of_item (e : DatabaseItem) (st : database) :
  WithReferences.update (WithReferences.of_item e) st
    = MongoDBDatabase.update e st.
Proof.
  assert (Hvalid : WithReferences.valid (WithReferences.of_item e)
                   = DatabaseItem.valid e).
  { unfold WithReferences.valid, DatabaseItem.valid, DatabaseItem.fields_ok.
    simpl. rewrite andb_true_r.
    induction (model_fields (type e)) as [|k l IH]; simpl; [done|].
    rewrite IH. f_equal.
    unfold WithReferences.str_ok, DatabaseItem.field_ok.
    rewrite lookup_fmap. by destruct (fields e !! k). }
  assert (Hdump : WithReferences.model_dump (WithReferences.of_item e)
                  = AVal <$> DatabaseItem.model_dump e).
  { apply map_eq. intros k.
    unfold WithReferences.model_dump, DatabaseItem.model_dump,
      DatabaseItem.declared_part. simpl.
    rewrite lookup_fmap. apply option_eq. intros a.
    rewrite map_lookup_filter_Some, lookup_fmap, !fmap_Some. simpl. split.
    - intros [(v & Hv & ->) [Hk|Hk]]; [|by apply not_elem_of_nil in Hk].
      exists v. split; [|done]. by apply map_lookup_filter_Some.
    - intros (v & [Hv Hk]%map_lookup_filter_Some & ->).
      split; [by exists v|by left]. }
  assert (Henc : ∀ d : gmap string value,
            WithReferences.bson_encode (AVal <$> d) = Ok d).
  { intros d. unfold WithReferences.bson_encode.
    rewrite bool_decide_true.
    - f_equal. apply map_eq. intros k.
      rewrite lookup_omap, lookup_fmap. by destruct (d !! k).
    - intros k a. rewrite lookup_fmap. intros (v & _ & ->)%fmap_Some.
      by eexists. }
  unfold WithReferences.update, MongoDBDatabase.update, lift, mbind, M_bind,
    DatabaseItem.model_validate_instance.
  rewrite Hvalid, Hdump, Henc. simpl.
  by destruct (DatabaseItem.valid e).
Qed.





(** C2 (missing get).  For every entity type and every identifier that its
    collection does not hold, [get] raises [UnknownEntityError] and leaves
    the database as it was; and whenever [get] returns an entity, that
    entity is of the requested type, has the requested identifier and holds
    a value of the declared type under every declared data field: a
    document that lacks one is refused, never returned in part. *)
Theorem get_unknown_or_complete (class_type : pyclass) (i : ObjectId)
    (st : database) :
  (st !! (__name__ class_type, i) = None →
     MongoDBDatabase.get class_type i st = (Raise UnknownEntityError, st)) ∧
  (∀ e st', MongoDBDatabase.get class_type i st = (Ok e, st') →
     st' = st ∧ type e = class_type ∧ identifier e = i ∧
     ∀ k, k ∈ model_fields class_type → ∃ s, fields e !! k = Some (VStr s)).
Proof.
  rewrite get_unfold. split.
  - by intros ->.
  - intros e st'. destruct (st !! (__name__ class_type, i)) as [b|]; [|done].
    unfold DatabaseItem.model_validate. simpl.
    destruct (DatabaseItem.fields_ok class_type b) eqn:Hok; [|done].
    intros [= <- <-]. simpl. do 3 (split; [done|]). intros k Hin.
    rewrite (declared_part_declared _ _ _ Hin).
    destruct (fields_ok_lookup _ _ _ Hok Hin) as ([s|o] & Hk & Hc); [|done].
    by exists s.
Qed.

(** An identifier that [two_users] does not hold, and one that it does. *)
Lemma get_unknown_or_complete_witness :
  MongoDBDatabase.get User (mkObjectId []) two_users
    = (Raise UnknownEntityError, two_users) ∧
  (two_users = two_users ∧ type eve = User ∧ identifier eve = oid_a ∧
   ∀ k, k ∈ model_fields User → ∃ s, fields eve !! k = Some (VStr s)).
Proof.
  split.
  - apply (proj1 (get_unknown_or_complete User (mkObjectId []) two_users)).
    reflexivity.
  - apply (proj2 (get_unknown_or_complete User oid_a two_users) eve two_users).
    reflexivity.
Defined.

(** C3 (delete).  When the collection holds [i], [delete] succeeds, after
    which [get] raises [UnknownEntityError] and so does a second [delete];
    when the collection does not hold [i], [delete] raises
    [UnknownEntityError] and leaves the database as it was.  The [cascade]
    flag changes none of this. *)
Theorem delete_removes_once (class_type : pyclass) (i : ObjectId)
    (cascade : bool) (st : database) :
  (is_Some (st !! (__name__ class_type, i)) →
     ∃ st',
       MongoDBDatabase.delete class_type i cascade st = (Ok (), st') ∧
       MongoDBDatabase.get class_type i st' = (Raise UnknownEntityError, st') ∧
       ∀ cascade',
         MongoDBDatabase.delete class_type i cascade' st'
           = (Raise UnknownEntityError, st')) ∧
  (st !! (__name__ class_type, i) = None →
     MongoDBDatabase.delete class_type i cascade st
       = (Raise UnknownEntityError, st)).
Proof.
  split.
  - intros [b Hb]. exists (base.delete (__name__ class_type, i) st).
    rewrite delete_unfold, Hb. split; [done|].
    rewrite get_unfold, lookup_delete_eq. split; [done|].
    intros cascade'. by rewrite delete_unfold, lookup_delete_eq.
  - intros Hb. by rewrite delete_unfold, Hb.
Qed.

(** Deleting the stored [eve], and deleting from the empty database. *)
Lemma delete_removes_once_witness :
  (∃ st',
     MongoDBDatabase.delete User oid_a false two_users = (Ok (), st') ∧
     MongoDBDatabase.get User oid_a st' = (Raise UnknownEntityError, st') ∧
     ∀ cascade',
       MongoDBDatabase.delete User oid_a cascade' st'
         = (Raise UnknownEntityError, st')) ∧
  MongoDBDatabase.delete User oid_a false ∅ = (Raise UnknownEntityError, ∅).
Proof.
  split.
  - apply (proj1 (delete_removes_once User oid_a false two_users)).
    by eexists.
  - by apply (proj2 (delete_removes_once User oid_a false ∅)).
Defined.

(** C8 ([get_all]).  On this backend [get_all] declines for every entity
    type and every state: it raises [NotImplementedError] (the spec's
    [NotSupportedError]) and leaves the database as it was, so it neither
    returns a mapping, empty or not, nor raises anything else. *)
Theorem get_all_declines (class_type : pyclass) (st : database) :
  MongoDBDatabase.get_all class_type st = (Raise NotImplementedError, st).
Proof. reflexivity. Qed.

(** ** Identity of entities *)

Lemma py_eq_true (a b : value) : py_eq a b = true ↔ a = b.
Proof.
  destruct a as [s|[o]], b as [t|[p]]; simpl;
    rewrite ?bool_decide_eq_true; split; congruence.
Qed.

Lemma ObjectId_eq_binary (o p : ObjectId) : o = p ↔ binary o = binary p.
Proof. destruct o, p; simpl. split; congruence. Qed.

(** C4 (identity-only equality).  For any two entities, of any classes and
    with any field values, [a == b] is true exactly when the identifiers
    are equal and false exactly when they differ, and entities with equal
    identifiers have equal hashes, whatever [hash] does on bytes.  Neither
    [type] nor [fields] occurs on the right-hand sides. *)
Theorem identity_only_equality (hash_bytes : list byte → Z)
    (a b : DatabaseItem) :
  (DatabaseItem.__eq__ a (PItem b) = Bool true ↔ identifier a = identifier b) ∧
  (DatabaseItem.__eq__ a (PItem b) = Bool false ↔ identifier a ≠ identifier b) ∧
  (identifier a = identifier b →
     DatabaseItem.__hash__ hash_bytes a = DatabaseItem.__hash__ hash_bytes b).
Proof.
  unfold DatabaseItem.__eq__, DatabaseItem.__hash__. simpl.
  rewrite (ObjectId_eq_binary (identifier a) (identifier b)).
  repeat split.
  - intros [= H]. by apply bool_decide_eq_true in H.
  - intros H. by rewrite bool_decide_true.
  - intros [= H]. by apply bool_decide_eq_false in H.
  - intros H. by rewrite bool_decide_false.
  - by intros ->.
Qed.

(** A [User] and a [Customer] that share an identifier and nothing else;
    and two users with different identifiers. *)
Lemma identity_only_equality_witness :
  (DatabaseItem.__eq__ eve (PItem a_customer) = Bool true ∧
   DatabaseItem.__hash__ sample_hash eve
     = DatabaseItem.__hash__ sample_hash a_customer) ∧
  DatabaseItem.__eq__ eve (PItem frank) = Bool false.
Proof.
  pose proof (identity_only_equality sample_hash eve a_customer) as (H1 & _ & H3).
  pose proof (identity_only_equality sample_hash eve frank) as (_ & H2 & _).
  split; [split|].
  - by apply H1.
  - by apply H3.
  - by apply H2.
Defined.

(** ** References *)

(** [ForeignKey.__eq__] compares the class objects and the two stored
    [identifier] attributes. *)
Lemma foreign_key_eq_iff (r1 r2 : ForeignKey) :
  ForeignKey.__eq__ r1 (PFk r2) = true ↔
  class_id (target_type r1) = class_id (target_type r2)
  ∧ fk_identifier r1 = fk_identifier r2.
Proof.
  unfold ForeignKey.__eq__, class_eq.
  by rewrite andb_true_iff, bool_decide_eq_true, py_eq_true.
Qed.

(** A reference built from an instance holds the identifier object, one
    built from a string holds the string: the two never compare equal. *)
Lemma reference_from_instance_ne_string (target : pyclass) (x : DatabaseItem)
    (s : string) (r_inst r_str : ForeignKey) :
  issubclass (type x) target = true →
  ForeignKey.validator target (PItem x) = Ok r_inst →
  ForeignKey.validator target (PVal (VStr s)) = Ok r_str →
  ForeignKey.__eq__ r_inst (PFk r_str) = false.
Proof.
  unfold ForeignKey.validator. simpl. intros -> [= <-] [= <-]. simpl.
  by rewrite andb_false_r.
Qed.

(** C5 (reference normalization), at the entity [a_customer] of type
    [Customer].  The reference validated from the instance holds the
    identifier as an [ObjectId], the one validated from [str] of that
    identifier holds the string, an already-built reference is returned as
    it is; the first compares unequal to the other two, in both
    directions. *)
Theorem reference_normalization_at_customer :
  ObjectId.__str__ (identifier a_customer) = "654f1a2b3c4d5e6f708192a3" ∧
  ForeignKey.validator Customer (PItem a_customer)
    = Ok customer_ref_of_instance ∧
  ForeignKey.validator Customer
    (PVal (VStr (ObjectId.__str__ (identifier a_customer))))
    = Ok customer_ref_of_string ∧
  ForeignKey.validator Customer (PFk customer_ref_of_string)
    = Ok customer_ref_of_string ∧
  ForeignKey.__eq__ customer_ref_of_string (PFk customer_ref_of_string) = true ∧
  ForeignKey.__eq__ customer_ref_of_instance (PFk customer_ref_of_string) = false ∧
  ForeignKey.__eq__ customer_ref_of_string (PFk customer_ref_of_instance) = false.
Proof. repeat split. Qed.




(** ** Identifier strings *)











(** ** Finding by field values *)

Section finding.
Import MongoDBDatabase.
Implicit Types (st : database) (cls : pyclass) (kwargs : gmap string value).

Lemma elem_of_select st name kwargs d :
  d ∈ select st name kwargs ↔
  st !! (name, _id d) = Some (body d) ∧ kwargs ⊆ to_dict d.
Proof.
  unfold select. rewrite list_elem_of_filter, elem_of_stored. tauto.
Qed.

Lemma NoDup_select_ids st name kwargs :
  NoDup (_id <$> select st name kwargs).
Proof.
  apply sublist_NoDup with (_id <$> stored st name).
  - apply NoDup_stored_ids.
  - apply fmap_sublist, sublist_filter.
Qed.

(** The comprehension over documents with distinct [_id]s that all
    validate: the result holds, under each [_id], the entity validated from
    that document, and keeps what [acc] held under other keys. *)
Lemma comprehension_spec cls (l : list document) acc :
  NoDup (_id <$> l) →
  Forall (λ d, DatabaseItem.fields_ok cls (body d) = true) l →
  ∃ m, comprehension cls l acc = Ok m ∧
    ∀ i e, m !! i = Some e ↔
      (∃ d, d ∈ l ∧ _id d = i ∧ DatabaseItem.model_validate cls d = Ok e)
      ∨ ((i ∉ _id <$> l) ∧ acc !! i = Some e).
Proof.
  revert acc. induction l as [|d l IH]; intros acc Hnd Hall.
  - exists acc. split; [done|]. intros i e. split.
    + intros H. right. split; [apply not_elem_of_nil|done].
    + intros [(d & Hd & _)|[_ H]]; [by apply not_elem_of_nil in Hd|done].
  - simpl in Hnd. apply NoDup_cons in Hnd as [Hd Hnd].
    apply Forall_cons in Hall as [Hok Hall].
    simpl. unfold DatabaseItem.model_validate at 1. rewrite Hok. simpl.
    set (e0 := {| type := cls; identifier := _id d;
                  fields := DatabaseItem.declared_part cls (body d) |}).
    destruct (IH (<[_id d := e0]> acc) Hnd Hall) as (m & -> & Hm).
    exists m. split; [done|]. intros i e. rewrite Hm. clear Hm.
    assert (Hd0 : DatabaseItem.model_validate cls d = Ok e0).
    { unfold DatabaseItem.model_validate. by rewrite Hok. }
    split.
    + intros [(d' & Hin & Hi & Hv)|[Hni Hacc]].
      * left. exists d'. split; [by apply elem_of_cons; right|done].
      * destruct (decide (_id d = i)) as [<-|Hne].
        -- rewrite lookup_insert_eq in Hacc. injection Hacc as <-.
           left. exists d. split; [by apply elem_of_cons; left|done].
        -- rewrite lookup_insert_ne in Hacc by done. right. split; [|done].
           simpl. apply not_elem_of_cons. split; [congruence|done].
    + intros [(d' & Hin & Hi & Hv)|[Hni Hacc]].
      * apply elem_of_cons in Hin as [->|Hin].
        -- right. subst i. split; [done|].
           rewrite lookup_insert_eq. congruence.
        -- left. by exists d'.
      * simpl in Hni. apply not_elem_of_cons in Hni as [Hne Hni].
        right. split; [done|]. by rewrite lookup_insert_ne.
Qed.

Lemma find_unfold cls kwargs st :
  find cls kwargs st =
    (Some <$> comprehension cls (select st (__name__ cls) kwargs) ∅, st).
Proof.
  unfold find, AsyncCollection.fetch, lift, mbind, M_bind. simpl.
  by destruct (comprehension _ _ _).
Qed.

(** What [find] returns when every document that matches the filter
    validates: the entities validated from exactly those documents. *)
Lemma find_matching cls kwargs st :
  (∀ d, d ∈ select st (__name__ cls) kwargs →
        DatabaseItem.fields_ok cls (body d) = true) →
  ∃ m, find cls kwargs st = (Ok (Some m), st) ∧
    ∀ i e, m !! i = Some e ↔
      ∃ b, st !! (__name__ cls, i) = Some b
           ∧ kwargs ⊆ to_dict {| _id := i; body := b |}
           ∧ e = {| type := cls; identifier := i;
                    fields := DatabaseItem.declared_part cls b |}.
Proof.
  intros Hall. rewrite find_unfold.
  destruct (comprehension_spec cls (select st (__name__ cls) kwargs) ∅)
    as (m & -> & Hm).
  { apply NoDup_select_ids. }
  { by apply Forall_forall. }
  exists m. split; [done|]. intros i e. rewrite Hm. split.
  - intros [(d & Hd & <- & Hv)|[_ H]]; [|by rewrite lookup_empty in H].
    pose proof (Hall d Hd) as Hok.
    apply elem_of_select in Hd as [Hd Hmatch].
    exists (body d). rewrite document_eta. do 2 (split; [done|]).
    unfold DatabaseItem.model_validate in Hv. rewrite Hok in Hv. congruence.
  - intros (b & Hb & Hmatch & ->). left.
    exists {| _id := i; body := b |}.
    assert (Hd : {| _id := i; body := b |} ∈ select st (__name__ cls) kwargs).
    { by apply elem_of_select. }
    split; [done|]. split; [done|].
    unfold DatabaseItem.model_validate. by rewrite (Hall _ Hd).
Qed.

(** [find_one] answers [None], not an exception, when nothing matches. *)
Lemma find_one_absent cls kwargs st :
  select st (__name__ cls) kwargs = [] →
  find_one cls kwargs st = (Ok None, st).
Proof.
  intros Hsel. unfold find_one, AsyncCollection.find_one, mbind, M_bind.
  by rewrite Hsel.
Qed.

Lemma comprehension_result cls (l : list document) acc :
  (∃ m, comprehension cls l acc = Ok m)
  ∨ comprehension cls l acc = Raise ValidationError.
Proof.
  revert acc. induction l as [|d l IH]; intros acc; simpl; [by left; eexists|].
  unfold DatabaseItem.model_validate.
  destruct (DatabaseItem.fields_ok cls (body d)); simpl; [apply IH|by right].
Qed.

Lemma stores_entities_lookup st cls i b :
  stores_entities st cls → st !! (__name__ cls, i) = Some b →
  DatabaseItem.fields_ok cls b = true ∧ DatabaseItem.declared_part cls b = b.
Proof. intros Hst Hb. by apply (Hst (__name__ cls, i) b Hb). Qed.

(** The backend's own writes keep a collection of entities of one type
    that way: the empty database, an [update] with a valid entity of that
    type, and a [delete]. *)
Lemma stores_entities_empty cls : stores_entities ∅ cls.
Proof. apply map_Forall_empty. Qed.

Lemma stores_entities_update st st' (e : DatabaseItem) :
  stores_entities st (type e) → DatabaseItem.valid e = true →
  update e st = (Ok (), st') → stores_entities st' (type e).
Proof.
  intros Hst Hv. rewrite update_unfold by done. intros [= <-].
  apply map_Forall_insert_2; [|done]. intros _.
  set (old := default ∅ (st !! (__name__ (type e), identifier e))).
  assert (Hold : DatabaseItem.declared_part (type e) old = old).
  { unfold old. destruct (st !! _) as [b|] eqn:Hb; simpl.
    - by apply (stores_entities_lookup st (type e) (identifier e)).
    - apply map_filter_empty. }
  split; [by apply fields_ok_set|].
  unfold DatabaseItem.model_dump. rewrite declared_part_set by done.
  apply map_eq. intros k.
  destruct (DatabaseItem.declared_part (type e) (fields e) !! k) as [v|] eqn:Hk.
  - symmetry. by apply lookup_union_Some_l.
  - symmetry. apply lookup_union_None. split; [done|].
    rewrite <- Hold, declared_part_lookup.
    rewrite declared_part_lookup in Hk.
    case_decide as Hdecl; [|done].
    destruct (fields_ok_lookup _ _ _ Hv Hdecl) as (v & Hv' & _).
    congruence.
Qed.

Lemma stores_entities_delete st st' cls class_type i cascade :
  stores_entities st cls →
  delete class_type i cascade st = (Ok (), st') → stores_entities st' cls.
Proof.
  intros Hst. rewrite delete_unfold.
  destruct (st !! (__name__ class_type, i)); [|done]. intros [= <-].
  by apply map_Forall_delete.
Qed.

End finding.




(** C10 ([find] never returns [None]).  The cursor that guards the
    [None] branch is truthy for every query, so for every entity type,
    filter and state [find] either returns a mapping or raises the
    [ValidationError] of a stored document that does not validate; it never
    returns [None].  It returns the empty mapping when the filter matches
    no document, and a mapping whenever every matching document
    validates. *)
Theorem find_never_none (cls : pyclass) (kwargs : gmap string value)
    (st : database) :
  cursor_truthy (AsyncCollection.find (__name__ cls) kwargs) = true ∧
  ((∃ m, MongoDBDatabase.find cls kwargs st = (Ok (Some m), st))
   ∨ MongoDBDatabase.find cls kwargs st = (Raise ValidationError, st)) ∧
  (∀ st', MongoDBDatabase.find cls kwargs st ≠ (Ok None, st')) ∧
  (select st (__name__ cls) kwargs = [] →
     MongoDBDatabase.find cls kwargs st = (Ok (Some ∅), st)) ∧
  (Forall (λ d, DatabaseItem.fields_ok cls (body d) = true)
          (select st (__name__ cls) kwargs) →
     ∃ m, MongoDBDatabase.find cls kwargs st = (Ok (Some m), st)).
Proof.
  split; [done|]. rewrite find_unfold.
  pose proof (comprehension_result cls (select st (__name__ cls) kwargs) ∅)
    as Hres.
  split; [|split; [|split]].
  - destruct Hres as [[m ->]| ->]; [left; by exists m|by right].
  - intros st'. by destruct Hres as [[m ->]| ->].
  - by intros ->.
  - intros Hall.
    destruct (comprehension_spec cls (select st (__name__ cls) kwargs) ∅)
      as (m & -> & _); [apply NoDup_select_ids|done|by exists m].
Qed.

(** No user is called Eva; two users have an address. *)
Lemma find_never_none_witness :
  MongoDBDatabase.find User {["name" := VStr "Eva"]} two_users
    = (Ok (Some ∅), two_users) ∧
  ∃ m, MongoDBDatabase.find User ∅ two_users = (Ok (Some m), two_users).
Proof.
  pose proof (find_never_none User {["name" := VStr "Eva"]} two_users)
    as (_ & _ & _ & Hnone & _).
  pose proof (find_never_none User ∅ two_users) as (_ & _ & _ & _ & Hall).
  split.
  - apply Hnone. by vm_compute.
  - apply Hall. vm_compute. repeat constructor.
Defined.

(** * Further properties of the code *)

(** ** Identifiers and their text *)

Lemma byte_hex_digits (x : byte) :
  is_space (hex_digit (Byte.to_N x / 16)) = false
  ∧ hex_digit_value (hex_digit (Byte.to_N x / 16)) = Some (Byte.to_N x / 16)%N
  ∧ hex_digit_value (hex_digit (Byte.to_N x mod 16)) = Some (Byte.to_N x mod 16)%N
  ∧ Byte.of_N (16 * (Byte.to_N x / 16) + Byte.to_N x mod 16) = Some x.
Proof. destruct x; vm_compute; done. Qed.

Lemma fromhex_encode_hex (b : list byte) : fromhex (encode_hex b) = Some b.
Proof.
  induction b as [|x b IH]; [done|]. simpl.
  destruct (byte_hex_digits x) as (-> & -> & -> & Hx). simpl.
  rewrite Hx. simpl. by rewrite IH.
Qed.

Lemma length_encode_hex (b : list byte) :
  String.length (encode_hex b) = 2 * length b.
Proof. induction b as [|x b IH]; simpl; [done|]. rewrite IH. lia. Qed.

(** X1 (text round trip).  [PyObjectId.validate] reads back the text of
    an identifier: for every [ObjectId] of twelve bytes, validating
    [str(oid)] returns that [ObjectId]; for an [ObjectId] of any other
    length the text is refused with [ValueError]. *)
Theorem validate_str_round_trip (o : ObjectId) :
  (length (binary o) = 12 →
     PyObjectId.validate (PVal (VStr (ObjectId.__str__ o))) = Ok o) ∧
  (length (binary o) ≠ 12 →
     PyObjectId.validate (PVal (VStr (ObjectId.__str__ o))) = Raise ValueError).
Proof.
  destruct o as [b]. unfold PyObjectId.validate, ObjectId.is_valid,
    ObjectId.__str__. simpl.
  pose proof (length_encode_hex b) as Hlen. split; intros Hb.
  - rewrite bool_decide_false.
    2:{ intros Hs. rewrite Hs in Hlen. simpl in Hlen. lia. }
    simpl. rewrite bool_decide_true by lia.
    by rewrite fromhex_encode_hex.
  - destruct (bool_decide (encode_hex b = EmptyString)); [done|]. simpl.
    by rewrite bool_decide_false by lia.
Qed.

Lemma validate_str_round_trip_witness :
  PyObjectId.validate (PVal (VStr (ObjectId.__str__ oid_a))) = Ok oid_a ∧
  PyObjectId.validate (PVal (VStr (ObjectId.__str__ (mkObjectId [x65]))))
    = Raise ValueError.
Proof.
  split.
  - by apply (proj1 (validate_str_round_trip oid_a)).
  - by apply (proj2 (validate_str_round_trip (mkObjectId [x65]))).
Defined.

(** X2 (what [validate] can answer).  Whatever it is given,
    [PyObjectId.validate] raises nothing but [ValueError]: bson's own
    [InvalidId] and [TypeError] never get out.  An [ObjectId] is returned as
    an equal identifier without any check, and so every identifier that
    [validate] returned validates to itself. *)
Theorem validate_outcomes (v : pyobj) :
  (∀ e, PyObjectId.validate v = Raise e → e = ValueError) ∧
  (∀ o, v = PVal (VOid o) → PyObjectId.validate v = Ok o) ∧
  (∀ o, PyObjectId.validate v = Ok o →
     PyObjectId.validate (PVal (VOid o)) = Ok o).
Proof.
  assert (Hoid : ∀ o, PyObjectId.validate (PVal (VOid o)) = Ok o).
  { by intros [b]. }
  split; [|split; [by intros o ->|by intros o _]].
  unfold PyObjectId.validate, ObjectId.is_valid.
  destruct v as [[s|[b]]|n|b|e|k]; simpl; try done.
  - destruct (bool_decide (s = EmptyString)); simpl; [by intros ? [= <-]|].
    case_bool_decide as Hlen; simpl; [|by intros ? [= <-]].
    destruct (fromhex s) as [b|] eqn:Hb; simpl; [done|by intros ? [= <-]].
  - destruct (bool_decide (n = 0%Z)); simpl; by intros e [= <-].
  - destruct (bool_decide (b = [])); simpl; [by intros ? [= <-]|].
    case_bool_decide as Hlen; simpl; [done|by intros ? [= <-]].
  - by intros ? [= <-].
  - by intros ? [= <-].
Qed.

(** An [int] and a single byte are refused with [ValueError]; an
    [ObjectId] comes back. *)
Lemma validate_outcomes_witness :
  PyObjectId.validate (PInt 7) = Raise ValueError ∧
  PyObjectId.validate (PBytes [x65]) = Raise ValueError ∧
  PyObjectId.validate (PVal (VOid oid_a)) = Ok oid_a.
Proof.
  split; [reflexivity|]. split; [reflexivity|].
  by apply (proj1 (proj2 (validate_outcomes (PVal (VOid oid_a)))) oid_a).
Defined.

(** ** References: equality, hash and text *)

(** X3 (reference equality is an equivalence).  [ForeignKey.__eq__] is
    reflexive, symmetric and transitive on references, and is false
    against anything that is not a reference. *)
Theorem foreign_key_eq_equivalence (r1 r2 r3 : ForeignKey) :
  ForeignKey.__eq__ r1 (PFk r1) = true ∧
  ForeignKey.__eq__ r1 (PFk r2) = ForeignKey.__eq__ r2 (PFk r1) ∧
  (ForeignKey.__eq__ r1 (PFk r2) = true →
   ForeignKey.__eq__ r2 (PFk r3) = true →
   ForeignKey.__eq__ r1 (PFk r3) = true) ∧
  (∀ v, ForeignKey.as_ForeignKey v = None → ForeignKey.__eq__ r1 v = false).
Proof.
  split; [by apply foreign_key_eq_iff|]. split; [|split].
  - destruct (ForeignKey.__eq__ r1 (PFk r2)) eqn:H12;
      destruct (ForeignKey.__eq__ r2 (PFk r1)) eqn:H21; try done.
    + apply foreign_key_eq_iff in H12 as [Hc Hi].
      assert (ForeignKey.__eq__ r2 (PFk r1) = true) by by apply foreign_key_eq_iff.
      congruence.
    + apply foreign_key_eq_iff in H21 as [Hc Hi].
      assert (ForeignKey.__eq__ r1 (PFk r2) = true) by by apply foreign_key_eq_iff.
      congruence.
  - rewrite !foreign_key_eq_iff. intros [-> ->] [-> ->]. done.
  - by intros [| | | |].
Qed.

Lemma foreign_key_eq_equivalence_witness :
  ForeignKey.__eq__ customer_ref_of_string (PFk customer_ref_of_string) = true ∧
  ForeignKey.__eq__ customer_ref_of_string (PVal (VStr "654f1a2b3c4d5e6f708192a3"))
    = false.
Proof.
  pose proof (foreign_key_eq_equivalence customer_ref_of_string
    customer_ref_of_string customer_ref_of_string) as (_ & _ & Ht & Hn).
  split.
  - by apply Ht.
  - by apply Hn.
Defined.

(** X4 (hash agrees with equality).  Two references that compare equal
    have the same hash, whatever Python's [hash] does on classes, strings,
    bytes and pairs: a [ForeignKey] can key a [dict] or sit in a [set]. *)
Theorem foreign_key_hash_consistent (hash_type : positive → Z)
    (hash_str : string → Z) (hash_bytes : list byte → Z)
    (hash_pair : Z → Z → Z) (r1 r2 : ForeignKey) :
  ForeignKey.__eq__ r1 (PFk r2) = true →
  ForeignKey.__hash__ hash_type hash_str hash_bytes hash_pair r1
    = ForeignKey.__hash__ hash_type hash_str hash_bytes hash_pair r2.
Proof.
  intros [Hc Hi]%foreign_key_eq_iff. unfold ForeignKey.__hash__.
  by rewrite Hc, Hi.
Qed.

Lemma foreign_key_hash_consistent_witness :
  ForeignKey.__eq__ customer_ref_of_string (PFk customer_ref_of_string) = true ∧
  ForeignKey.__hash__ sample_hash_type sample_hash_str sample_hash
    sample_hash_pair customer_ref_of_string
  = ForeignKey.__hash__ sample_hash_type sample_hash_str sample_hash
      sample_hash_pair customer_ref_of_string.
Proof.
  split; [reflexivity|].
  by apply (foreign_key_hash_consistent sample_hash_type sample_hash_str
    sample_hash sample_hash_pair customer_ref_of_string).
Defined.

(** X5 (the text of a reference).  The reference that the validator
    builds from an instance and the one it builds from [str] of that
    instance's identifier have the same [repr], although they do not
    compare equal: the text does not show which of the two a reference
    is. *)
Theorem foreign_key_repr_same_text (target : pyclass) (x : DatabaseItem)
    (r_inst r_str : ForeignKey) :
  ForeignKey.validator target (PItem x) = Ok r_inst →
  ForeignKey.validator target
    (PVal (VStr (ObjectId.__str__ (identifier x)))) = Ok r_str →
  ForeignKey.__repr__ r_inst = ForeignKey.__repr__ r_str
  ∧ ForeignKey.__eq__ r_inst (PFk r_str) = false.
Proof.
  unfold ForeignKey.validator. simpl.
  destruct (issubclass (type x) target); [|done].
  intros [= <-] [= <-]. split; [done|]. simpl. by rewrite andb_false_r.
Qed.

Lemma foreign_key_repr_same_text_witness :
  ForeignKey.__repr__ customer_ref_of_instance
    = "ForeignKey(Customer:654f1a2b3c4d5e6f708192a3)" ∧
  ForeignKey.__repr__ customer_ref_of_instance
    = ForeignKey.__repr__ customer_ref_of_string
  ∧ ForeignKey.__eq__ customer_ref_of_instance (PFk customer_ref_of_string)
    = false.
Proof.
  split; [reflexivity|].
  by apply (foreign_key_repr_same_text Customer a_customer).
Defined.

(** X6 (what makes two references equal).  Two references that
    [ForeignKey[target]] builds from instances compare equal exactly when
    the instances have the same identifier, that is when the instances
    themselves compare equal; two that it builds from strings compare equal
    exactly when the strings are the same text. *)
Theorem reference_equality_by_source (target : pyclass) (x y : DatabaseItem)
    (s t : string) (rx ry rs rt : ForeignKey) :
  ForeignKey.validator target (PItem x) = Ok rx →
  ForeignKey.validator target (PItem y) = Ok ry →
  ForeignKey.validator target (PVal (VStr s)) = Ok rs →
  ForeignKey.validator target (PVal (VStr t)) = Ok rt →
  (ForeignKey.__eq__ rx (PFk ry) = true ↔ identifier x = identifier y) ∧
  (ForeignKey.__eq__ rx (PFk ry) = true ↔
     DatabaseItem.__eq__ x (PItem y) = Bool true) ∧
  (ForeignKey.__eq__ rs (PFk rt) = true ↔ s = t).
Proof.
  intros Hx Hy Hs Ht. unfold ForeignKey.validator in Hx, Hy, Hs, Ht.
  simpl in Hx, Hy, Hs, Ht.
  destruct (issubclass (type x) target); [|done].
  destruct (issubclass (type y) target); [|done].
  injection Hx as <-. injection Hy as <-. injection Hs as <-. injection Ht as <-.
  rewrite !foreign_key_eq_iff. cbn [target_type fk_identifier].
  assert (Hid : VOid (identifier x) = VOid (identifier y)
                ↔ identifier x = identifier y) by (split; congruence).
  assert (Heq : DatabaseItem.__eq__ x (PItem y) = Bool true
                ↔ identifier x = identifier y).
  { unfold DatabaseItem.__eq__. simpl.
    rewrite (ObjectId_eq_binary (identifier x) (identifier y)). split.
    - intros [= H]. by apply bool_decide_eq_true in H.
    - intros H. by rewrite bool_decide_true. }
  assert (Hst : VStr s = VStr t ↔ s = t) by (split; congruence).
  rewrite Heq, Hid, Hst. tauto.
Qed.

(** [eve] and [eve_moved] are one user; two spellings of one identifier
    are two texts. *)
Lemma reference_equality_by_source_witness :
  ForeignKey.__eq__ {| target_type := User; fk_identifier := VOid oid_a |}
    (PFk {| target_type := User; fk_identifier := VOid oid_a |}) = true ∧
  ForeignKey.__eq__
    {| target_type := User; fk_identifier := VStr "654f1a2b3c4d5e6f708192a3" |}
    (PFk {| target_type := User;
            fk_identifier := VStr "654F1A2B3C4D5E6F708192A3" |}) = false.
Proof.
  pose proof (reference_equality_by_source User eve eve_moved
    "654f1a2b3c4d5e6f708192a3" "654F1A2B3C4D5E6F708192A3" _ _ _ _
    eq_refl eq_refl eq_refl eq_refl) as (H1 & _ & H3).
  split.
  - by apply H1.
  - apply not_true_is_false. intros H. by apply H3 in H.
Defined.

(** ** The backend: writes *)

Section writes.
Import MongoDBDatabase.
Implicit Types (st : database) (i : ObjectId) (cls : pyclass)
  (e : DatabaseItem).

Lemma update_Ok_valid e st st' :
  update e st = (Ok (), st') → DatabaseItem.valid e = true.
Proof.
  destruct (DatabaseItem.valid e) eqn:Hv; [done|].
  by rewrite update_invalid.
Qed.

Lemma update_state e st st' :
  update e st = (Ok (), st') →
  st' = <[(__name__ (type e), identifier e) :=
            DatabaseItem.model_dump e
            ∪ default ∅ (st !! (__name__ (type e), identifier e))]> st.
Proof.
  intros H. pose proof (update_Ok_valid _ _ _ H) as Hv.
  rewrite update_unfold in H by done. by injection H as <-.
Qed.

Lemma model_dump_lookup e k :
  DatabaseItem.valid e = true →
  DatabaseItem.model_dump e !! k =
    if decide (k ∈ model_fields (type e)) then fields e !! k else None.
Proof. intros _. apply declared_part_lookup. Qed.

End writes.

(** X7 (validation comes first).  [update] writes exactly when the
    entity validates: an entity with a declared field missing or ill-typed
    is refused with [ValidationError] and the database stays as it was, and
    an [update] that succeeded was given a valid entity. *)
Theorem update_validates_first (e : DatabaseItem) (st : database) :
  (DatabaseItem.valid e = false →
     MongoDBDatabase.update e st = (Raise ValidationError, st)) ∧
  (∀ st', MongoDBDatabase.update e st = (Ok (), st') →
     DatabaseItem.valid e = true).
Proof.
  split; [by apply update_invalid|]. intros st'. by apply update_Ok_valid.
Qed.

(** A user whose [email] was deleted from the instance. *)
Lemma update_validates_first_witness :
  MongoDBDatabase.update
    {| type := User; identifier := oid_c; fields := {["name" := VStr "Carol"]} |}
    two_users = (Raise ValidationError, two_users) ∧
  DatabaseItem.valid eve = true.
Proof.
  split.
  - by apply (proj1 (update_validates_first _ two_users)).
  - by apply (proj2 (update_validates_first eve two_users)
                (snd (MongoDBDatabase.update eve two_users))).
Defined.

(** X8 ([update] merges).  After a successful [update] the document of
    the entity holds, under each declared field, the entity's value, and
    under every other key what the stored document held before: keys that
    the class does not declare are kept, not dropped. *)
Theorem update_merges (e : DatabaseItem) (st st' : database) :
  MongoDBDatabase.update e st = (Ok (), st') →
  ∃ b', st' !! (__name__ (type e), identifier e) = Some b' ∧
    ∀ k, b' !! k =
      if decide (k ∈ model_fields (type e)) then fields e !! k
      else st !! (__name__ (type e), identifier e) ≫= (.!! k).
Proof.
  intros H. pose proof (update_Ok_valid _ _ _ H) as Hv.
  rewrite (update_state _ _ _ H). eexists. split; [apply lookup_insert_eq|].
  intros k. rewrite lookup_union, model_dump_lookup by done.
  case_decide as Hk.
  - destruct (fields_ok_lookup _ _ _ Hv Hk) as (v & -> & _).
    by destruct (default ∅ _ !! k).
  - rewrite (left_id_L None _).
    destruct (st !! (__name__ (type e), identifier e)); simpl; [done|].
    apply lookup_empty.
Qed.

(** [eve_moved] written over the legacy document of [eve]: the address
    is new, the nickname is still there. *)
Lemma update_merges_witness :
  ∃ st' b',
    MongoDBDatabase.update eve_moved legacy_users = (Ok (), st') ∧
    st' !! ("User", oid_a) = Some b' ∧
    b' !! "email" = Some (VStr "eve@example.org") ∧
    b' !! "nickname" = Some (VStr "E").
Proof.
  eexists (snd (MongoDBDatabase.update eve_moved legacy_users)).
  destruct (update_merges eve_moved legacy_users
    (snd (MongoDBDatabase.update eve_moved legacy_users)) eq_refl)
    as (b' & Hb & Hk).
  exists b'. split; [reflexivity|]. split; [exact Hb|].
  split; [apply (Hk "email")|apply (Hk "nickname")].
Defined.

(** X9 ([update] touches one document).  A successful [update] changes
    nothing under any other collection name or identifier: [get] of
    another entity answers after it what it answered before. *)
Theorem update_frame (e : DatabaseItem) (st st' : database)
    (cls : pyclass) (i : ObjectId) :
  MongoDBDatabase.update e st = (Ok (), st') →
  (__name__ cls, i) ≠ (__name__ (type e), identifier e) →
  st' !! (__name__ cls, i) = st !! (__name__ cls, i)
  ∧ MongoDBDatabase.get cls i st' = ((MongoDBDatabase.get cls i st).1, st').
Proof.
  intros H Hne. pose proof (update_other _ _ _ _ _ H Hne) as Hother.
  split; [done|]. rewrite !get_unfold, Hother.
  by destruct (st !! (__name__ cls, i)).
Qed.

Lemma update_frame_witness :
  (MongoDBDatabase.get User oid_b
     (snd (MongoDBDatabase.update eve_moved two_users))).1 = Ok frank.
Proof.
  destruct (update_frame eve_moved two_users
    (snd (MongoDBDatabase.update eve_moved two_users)) User oid_b eq_refl)
    as [_ H]; [done|].
  rewrite H. reflexivity.
Defined.

(** X10 ([update] is idempotent).  Writing the same entity a second time
    succeeds and leaves the database exactly as the first write left it. *)
Theorem update_idempotent (e : DatabaseItem) (st st' : database) :
  MongoDBDatabase.update e st = (Ok (), st') →
  MongoDBDatabase.update e st' = (Ok (), st').
Proof.
  intros H. pose proof (update_Ok_valid _ _ _ H) as Hv.
  rewrite (update_state _ _ _ H). rewrite update_unfold by done.
  f_equal. rewrite lookup_insert_eq. simpl.
  rewrite insert_insert_eq. f_equal.
  by rewrite (assoc_L (∪)), (idemp_L (∪)).
Qed.

Lemma update_idempotent_witness :
  MongoDBDatabase.update eve two_users = (Ok (), two_users).
Proof.
  apply (update_idempotent eve (base.delete ("User", oid_a) two_users)).
  reflexivity.
Defined.

(** ** The backend: reads and deletes *)

Section reads.
Import MongoDBDatabase.
Implicit Types (st : database) (i : ObjectId) (cls : pyclass)
  (kwargs : gmap string value).

Lemma find_one_unfold cls kwargs st :
  find_one cls kwargs st =
    match head (select st (__name__ cls) kwargs) with
    | Some d => (Some <$> DatabaseItem.model_validate cls d, st)
    | None => (Ok None, st)
    end.
Proof.
  unfold find_one, AsyncCollection.find_one, mbind, M_bind, lift.
  destruct (head _) as [d|]; [|done]. rewrite to_dict_truthy.
  by destruct (DatabaseItem.model_validate cls d).
Qed.

(** [find_one] leaves the database as it was, so its answer on a given
    state is known from the first component alone. *)
Lemma find_one_eval cls kwargs st r :
  (find_one cls kwargs st).1 = r → find_one cls kwargs st = (r, st).
Proof.
  rewrite find_one_unfold. by destruct (head _); intros <-.
Qed.

(** One document that does not validate makes the whole comprehension
    raise. *)
Lemma comprehension_invalid cls (l : list document) acc d :
  d ∈ l → DatabaseItem.fields_ok cls (body d) = false →
  comprehension cls l acc = Raise ValidationError.
Proof.
  revert acc. induction l as [|x l IH]; intros acc Hin Hbad.
  - by apply not_elem_of_nil in Hin.
  - simpl. unfold DatabaseItem.model_validate at 1.
    destruct (DatabaseItem.fields_ok cls (body x)) eqn:Hx; [|done]. simpl.
    apply elem_of_cons in Hin as [->|Hin]; [congruence|]. by apply IH.
Qed.

Lemma model_validate_stored st cls i b :
  stores_entities st cls → st !! (__name__ cls, i) = Some b →
  DatabaseItem.model_validate cls {| _id := i; body := b |}
    = Ok {| type := cls; identifier := i; fields := b |}.
Proof.
  intros Hst Hb. destruct (stores_entities_lookup _ _ _ _ Hst Hb) as [Hok Hd].
  unfold DatabaseItem.model_validate. simpl. by rewrite Hok, Hd.
Qed.

Lemma by_alias_stored st cls i b :
  stores_entities st cls → st !! (__name__ cls, i) = Some b →
  DatabaseItem.model_dump_by_alias
    {| type := cls; identifier := i; fields := b |}
  = to_dict {| _id := i; body := b |}.
Proof.
  intros Hst Hb. destruct (stores_entities_lookup _ _ _ _ Hst Hb) as [_ Hd].
  unfold DatabaseItem.model_dump_by_alias, DatabaseItem.model_dump, to_dict.
  simpl. by rewrite Hd.
Qed.

End reads.

(** X11 (what [get] answers on a stored document).  When the collection
    holds a document under the identifier, [get] raises [ValidationError]
    (not [UnknownEntityError]) if a declared field is missing from it or
    ill-typed, and otherwise returns the entity made of the declared
    fields alone: keys that the class does not declare are dropped. *)
Theorem get_stored (cls : pyclass) (i : ObjectId) (st : database)
    (b : gmap string value) :
  st !! (__name__ cls, i) = Some b →
  (DatabaseItem.fields_ok cls b = false →
     MongoDBDatabase.get cls i st = (Raise ValidationError, st)) ∧
  (DatabaseItem.fields_ok cls b = true →
     MongoDBDatabase.get cls i st
       = (Ok {| type := cls; identifier := i;
                fields := DatabaseItem.declared_part cls b |}, st)).
Proof.
  intros Hb. rewrite get_unfold, Hb. unfold DatabaseItem.model_validate. simpl.
  split; by intros ->.
Qed.

(** The legacy collection: the document without [email] is refused, the
    one with a [nickname] comes back as plain [eve]. *)
Lemma get_stored_witness :
  MongoDBDatabase.get User oid_c legacy_users
    = (Raise ValidationError, legacy_users) ∧
  MongoDBDatabase.get User oid_a legacy_users = (Ok eve, legacy_users).
Proof.
  split.
  - by apply (proj1 (get_stored User oid_c legacy_users
                       {["name" := VStr "Carol"]} eq_refl)).
  - by apply (proj2 (get_stored User oid_a legacy_users _ eq_refl)).
Defined.

(** X12 ([delete] removes one document).  A successful [delete] leaves
    the database without the document of that collection and identifier
    and otherwise as it was, whatever [cascade] says: every other document,
    of this collection or another, is still there, and [get] of it answers
    what it answered before. *)
Theorem delete_frame (cls : pyclass) (i : ObjectId) (cascade : bool)
    (st st' : database) :
  MongoDBDatabase.delete cls i cascade st = (Ok (), st') →
  st' = base.delete (__name__ cls, i) st ∧
  ∀ cls' j, (__name__ cls', j) ≠ (__name__ cls, i) →
    st' !! (__name__ cls', j) = st !! (__name__ cls', j)
    ∧ MongoDBDatabase.get cls' j st' = ((MongoDBDatabase.get cls' j st).1, st').
Proof.
  rewrite delete_unfold.
  destruct (st !! (__name__ cls, i)) as [b|]; [|done]. intros [= <-].
  split; [done|]. intros cls' j Hne.
  assert (Hother : base.delete (__name__ cls, i) st !! (__name__ cls', j)
                   = st !! (__name__ cls', j)) by by apply lookup_delete_ne.
  split; [done|]. rewrite !get_unfold, Hother.
  by destruct (st !! (__name__ cls', j)).
Qed.

(** [eve] deleted with [cascade=True]: [frank] is still there. *)
Lemma delete_frame_witness :
  MongoDBDatabase.delete User oid_a true two_users
    = (Ok (), {[ ("User", oid_b) := fields frank ]}) ∧
  MongoDBDatabase.get User oid_b {[ ("User", oid_b) := fields frank ]}
    = (Ok frank, {[ ("User", oid_b) := fields frank ]}).
Proof.
  assert (H : MongoDBDatabase.delete User oid_a true two_users
              = (Ok (), {[ ("User", oid_b) := fields frank ]})) by reflexivity.
  split; [exact H|].
  destruct (delete_frame User oid_a true two_users _ H) as [_ Hf].
  destruct (Hf User oid_b) as [_ Hg]; [done|].
  rewrite Hg. reflexivity.
Defined.



(** ** The backend: queries *)

(** X14 ([find_one] and several matches).  On a collection that holds
    entities of the queried type, [find_one] never raises: it returns
    [None] exactly when no stored entity carries every pair of the filter,
    and otherwise returns one stored entity that does, however many others
    match as well. *)
Theorem find_one_outcomes (cls : pyclass) (kwargs : gmap string value)
    (st : database) :
  stores_entities st cls →
  (MongoDBDatabase.find_one cls kwargs st = (Ok None, st)
   ∧ ∀ i e, stored_entity st cls i = Some e →
            ¬ kwargs ⊆ DatabaseItem.model_dump_by_alias e)
  ∨ (∃ i e, MongoDBDatabase.find_one cls kwargs st = (Ok (Some e), st)
            ∧ stored_entity st cls i = Some e
            ∧ kwargs ⊆ DatabaseItem.model_dump_by_alias e).
Proof.
  intros Hst. rewrite find_one_unfold.
  destruct (head (select st (__name__ cls) kwargs)) as [d|] eqn:Hhead.
  - right. apply head_Some_elem_of in Hhead.
    apply elem_of_select in Hhead as [Hd Hsub].
    exists (_id d), {| type := cls; identifier := _id d; fields := body d |}.
    rewrite <- (document_eta d) at 1.
    rewrite (model_validate_stored st) by done. split; [done|].
    unfold stored_entity. rewrite Hd. split; [done|].
    rewrite (by_alias_stored st) by done. by rewrite document_eta.
  - left. split; [done|]. apply head_None in Hhead.
    intros i e He Hsub. unfold stored_entity in He.
    destruct (st !! (__name__ cls, i)) as [b|] eqn:Hb; [|done].
    injection He as <-. rewrite (by_alias_stored st) in Hsub by done.
    assert (Hin : {| _id := i; body := b |} ∈ select st (__name__ cls) kwargs).
    { by apply elem_of_select. }
    rewrite Hhead in Hin. by apply not_elem_of_nil in Hin.
Qed.

(** Both users have an address, so the empty filter matches two; one
    comes back, and it is one of the two. *)
Lemma find_one_outcomes_witness :
  stores_entities two_users User ∧
  ∃ e, MongoDBDatabase.find_one User ∅ two_users = (Ok (Some e), two_users)
       ∧ (e = eve ∨ e = frank).
Proof.
  assert (Hst : stores_entities two_users User).
  { apply (bool_decide_unpack _). by vm_compute. }
  split; [exact Hst|].
  destruct (find_one_outcomes User ∅ two_users Hst)
    as [[Hnone _]|(i & e & Hsome & He & _)].
  - exfalso. apply (f_equal fst) in Hnone. vm_compute in Hnone.
    discriminate Hnone.
  - exists e. split; [exact Hsome|].
    unfold stored_entity, two_users in He.
    destruct (decide (i = oid_a)) as [->|Ha].
    + rewrite lookup_insert_eq in He. left. by injection He as <-.
    + rewrite lookup_insert_ne in He by congruence.
      destruct (decide (i = oid_b)) as [->|Hb].
      * rewrite lookup_singleton_eq in He. right. by injection He as <-.
      * by rewrite lookup_singleton_ne in He by congruence.
Defined.

(** X15 ([find_one] against [find]).  When every document that matches
    the filter validates, what [find_one] returns is in what [find]
    returns: [None] from [find_one] means the empty mapping from [find],
    and an entity from [find_one] sits in [find]'s mapping under its
    identifier. *)
Theorem find_one_in_find (cls : pyclass) (kwargs : gmap string value)
    (st : database) :
  Forall (λ d, DatabaseItem.fields_ok cls (body d) = true)
         (select st (__name__ cls) kwargs) →
  (MongoDBDatabase.find_one cls kwargs st = (Ok None, st) →
     MongoDBDatabase.find cls kwargs st = (Ok (Some ∅), st)) ∧
  (∀ e, MongoDBDatabase.find_one cls kwargs st = (Ok (Some e), st) →
     ∃ m, MongoDBDatabase.find cls kwargs st = (Ok (Some m), st)
          ∧ m !! identifier e = Some e).
Proof.
  intros Hall. rewrite find_one_unfold. split.
  - destruct (head (select st (__name__ cls) kwargs)) as [d|] eqn:Hhead.
    + by destruct (DatabaseItem.model_validate cls d).
    + intros _. apply head_None in Hhead. by rewrite find_unfold, Hhead.
  - intros e He.
    destruct (head (select st (__name__ cls) kwargs)) as [d|] eqn:Hhead; [|done].
    apply head_Some_elem_of in Hhead.
    destruct (find_matching cls kwargs st) as (m & Hfind & Hm).
    { by apply Forall_forall. }
    exists m. split; [done|]. apply Hm.
    pose proof (proj1 (Forall_forall _ _) Hall d Hhead) as Hok.
    unfold DatabaseItem.model_validate in He. rewrite Hok in He.
    simpl in He. injection He as <-. simpl.
    apply elem_of_select in Hhead as [Hd Hsub].
    exists (body d). by rewrite document_eta.
Qed.

Lemma find_one_in_find_witness :
  MongoDBDatabase.find_one User {["name" := VStr "Frank"]} two_users
    = (Ok (Some frank), two_users) ∧
  ∃ m, MongoDBDatabase.find User {["name" := VStr "Frank"]} two_users
         = (Ok (Some m), two_users)
       ∧ m !! oid_b = Some frank.
Proof.
  assert (H1 : MongoDBDatabase.find_one User {["name" := VStr "Frank"]} two_users
               = (Ok (Some frank), two_users)).
  { apply find_one_eval. vm_compute. reflexivity. }
  split; [exact H1|].
  assert (Hall : Forall (λ d, DatabaseItem.fields_ok User (body d) = true)
            (select two_users (__name__ User) {["name" := VStr "Frank"]})).
  { vm_compute. repeat constructor. }
  exact (proj2 (find_one_in_find User {["name" := VStr "Frank"]} two_users Hall)
           frank H1).
Defined.

(** X16 ([find_one] on [_id] against [get]).  A [find_one] whose filter
    is the identifier alone finds what [get] gets: it returns an entity
    exactly when [get] returns that entity, and [None] exactly when [get]
    raises [UnknownEntityError]. *)
Theorem find_one_by_id (cls : pyclass) (i : ObjectId) (st : database) :
  (∀ e, MongoDBDatabase.find_one cls {["_id" := VOid i]} st = (Ok (Some e), st)
        ↔ MongoDBDatabase.get cls i st = (Ok e, st)) ∧
  (MongoDBDatabase.find_one cls {["_id" := VOid i]} st = (Ok None, st)
   ↔ MongoDBDatabase.get cls i st = (Raise UnknownEntityError, st)).
Proof.
  rewrite find_one_unfold, get_unfold, select_by_id.
  destruct (st !! (__name__ cls, i)) as [b|]; simpl.
  - destruct (DatabaseItem.model_validate cls _) as [e'|err] eqn:Hv; simpl.
    + split; [intros e; split; congruence|split; congruence].
    + split; [intros e; split; congruence|].
      unfold DatabaseItem.model_validate in Hv.
      destruct (DatabaseItem.fields_ok cls _); [done|].
      injection Hv as <-. split; congruence.
  - split; [intros e; split; congruence|done].
Qed.

(** X17 ([find] without a filter lists the collection).  On a
    collection that holds entities of the queried type, [find] with no
    keyword returns the whole collection: the mapping holds under every
    identifier exactly the entity stored under it. *)
Theorem find_all (cls : pyclass) (st : database) :
  stores_entities st cls →
  ∃ m, MongoDBDatabase.find cls ∅ st = (Ok (Some m), st)
       ∧ ∀ i, m !! i = stored_entity st cls i.
Proof.
  intros Hst. destruct (find_matching cls ∅ st) as (m & Hfind & Hm).
  { intros d Hd. apply elem_of_select in Hd as [Hd _].
    by apply (stores_entities_lookup st cls (_id d)). }
  exists m. split; [done|]. intros i. apply option_eq. intros e.
  rewrite Hm. unfold stored_entity. split.
  - intros (b & Hb & _ & ->).
    destruct (stores_entities_lookup _ _ _ _ Hst Hb) as [_ Hd].
    by rewrite Hb, Hd.
  - destruct (st !! (__name__ cls, i)) as [b|] eqn:Hb; [|done].
    intros [= <-]. exists b. split; [done|].
    split; [apply map_empty_subseteq|].
    destruct (stores_entities_lookup _ _ _ _ Hst Hb) as [_ Hd].
    by rewrite Hd.
Qed.

Lemma find_all_witness :
  stores_entities two_users User ∧
  ∃ m, MongoDBDatabase.find User ∅ two_users = (Ok (Some m), two_users)
       ∧ m !! oid_a = Some eve ∧ m !! oid_b = Some frank
       ∧ m !! oid_c = None.
Proof.
  assert (Hst : stores_entities two_users User).
  { apply (bool_decide_unpack _). by vm_compute. }
  split; [exact Hst|].
  destruct (find_all User two_users Hst) as (m & Hfind & Hm).
  exists m. split; [exact Hfind|]. rewrite !Hm.
  split; [reflexivity|]. split; reflexivity.
Defined.

(** X18 (one bad document fails the query).  If the collection holds a
    document that matches the filter and does not validate as the queried
    type, [find] raises [ValidationError] and returns nothing at all, not
    even the matching documents that do validate. *)
Theorem find_bad_document (cls : pyclass) (kwargs : gmap string value)
    (st : database) (i : ObjectId) (b : gmap string value) :
  st !! (__name__ cls, i) = Some b →
  kwargs ⊆ to_dict {| _id := i; body := b |} →
  DatabaseItem.fields_ok cls b = false →
  MongoDBDatabase.find cls kwargs st = (Raise ValidationError, st).
Proof.
  intros Hb Hsub Hbad. rewrite find_unfold.
  rewrite (comprehension_invalid cls _ ∅ {| _id := i; body := b |}); [done| |done].
  by apply elem_of_select.
Qed.

(** The legacy collection: the document without [email] spoils the
    listing, although [eve]'s document validates. *)
Lemma find_bad_document_witness :
  MongoDBDatabase.find User ∅ legacy_users
    = (Raise ValidationError, legacy_users).
Proof.
  apply (find_bad_document User ∅ legacy_users oid_c {["name" := VStr "Carol"]}).
  - reflexivity.
  - apply map_empty_subseteq.
  - reflexivity.
Defined.

(** X19 (the filter is matched against the stored document).  When every
    matching document validates, [find] returns an entity for exactly the
    stored documents that hold every pair of the filter, under [_id] or any
    other key, declared by the class or not; the entity returned carries
    the declared fields only. *)
Theorem find_on_documents (cls : pyclass) (kwargs : gmap string value)
    (st : database) :
  Forall (λ d, DatabaseItem.fields_ok cls (body d) = true)
         (select st (__name__ cls) kwargs) →
  ∃ m, MongoDBDatabase.find cls kwargs st = (Ok (Some m), st) ∧
    ∀ i e, m !! i = Some e ↔
      ∃ b, st !! (__name__ cls, i) = Some b
           ∧ kwargs ⊆ to_dict {| _id := i; body := b |}
           ∧ e = {| type := cls; identifier := i;
                    fields := DatabaseItem.declared_part cls b |}.
Proof.
  intros Hall. apply find_matching. by apply Forall_forall.
Qed.

(** A filter on [nickname], which [User] does not declare, finds [eve]
    in the legacy collection; the entity has no nickname. *)
Lemma find_on_documents_witness :
  ∃ m, MongoDBDatabase.find User {["nickname" := VStr "E"]} legacy_users
         = (Ok (Some m), legacy_users)
       ∧ m !! oid_a = Some eve.
Proof.
  assert (Hall : Forall (λ d, DatabaseItem.fields_ok User (body d) = true)
            (select legacy_users (__name__ User) {["nickname" := VStr "E"]})).
  { vm_compute. repeat constructor. }
  destruct (find_on_documents User {["nickname" := VStr "E"]} legacy_users Hall)
    as (m & Hfind & Hm).
  exists m. split; [exact Hfind|]. apply Hm. eexists. split; [reflexivity|].
  split; [|reflexivity].
  apply (bool_decide_unpack _). vm_compute. reflexivity.
Defined.

(** X20 ([find] after [update]).  On a collection that holds entities of
    the entity's type, after a successful [update] of [e] a [find] on that
    type returns [e]'s written form under [e]'s identifier when [e] carries
    every pair of the filter, and nothing under that identifier when it
    does not. *)
Theorem find_after_update (e : DatabaseItem) (kwargs : gmap string value)
    (st st' : database) :
  stores_entities st (type e) →
  MongoDBDatabase.update e st = (Ok (), st') →
  ∃ m, MongoDBDatabase.find (type e) kwargs st' = (Ok (Some m), st') ∧
    (kwargs ⊆ DatabaseItem.model_dump_by_alias e →
       m !! identifier e
         = Some {| type := type e; identifier := identifier e;
                   fields := DatabaseItem.model_dump e |}) ∧
    (¬ kwargs ⊆ DatabaseItem.model_dump_by_alias e →
       m !! identifier e = None).
Proof.
  intros Hst Hup. pose proof (update_Ok_valid _ _ _ Hup) as Hv.
  pose proof (stores_entities_update _ _ _ Hst Hv Hup) as Hst'.
  destruct (find_matching (type e) kwargs st') as (m & Hfind & Hm).
  { intros d Hd. apply elem_of_select in Hd as [Hd _].
    by apply (stores_entities_lookup st' (type e) (_id d)). }
  exists m. split; [done|].
  assert (Hbody : st' !! (__name__ (type e), identifier e)
                  = Some (DatabaseItem.model_dump e)).
  { rewrite (update_state _ _ _ Hup), lookup_insert_eq. f_equal.
    pose proof Hst' as Hs. rewrite (update_state _ _ _ Hup) in Hs.
    destruct (stores_entities_lookup _ _ (identifier e) _ Hs
                (lookup_insert_eq _ _ _)) as [_ Hd].
    rewrite <- Hd at 1. unfold DatabaseItem.model_dump.
    by rewrite declared_part_set. }
  assert (Hdump : DatabaseItem.declared_part (type e) (DatabaseItem.model_dump e)
                  = DatabaseItem.model_dump e).
  { by destruct (stores_entities_lookup _ _ _ _ Hst' Hbody). }
  split.
  - intros Hsub. apply Hm. exists (DatabaseItem.model_dump e).
    split; [done|]. split; [done|]. by rewrite Hdump.
  - intros Hsub. apply eq_None_not_Some. intros [e' He'].
    apply Hm in He' as (b & Hb & Hsub' & _).
    rewrite Hbody in Hb. injection Hb as <-. by apply Hsub.
Qed.

(** [eve] written beside [frank]: a query for Eve finds her, a query for
    Frank does not return her. *)
Lemma find_after_update_witness :
  ∃ st', MongoDBDatabase.update eve {[ ("User", oid_b) := fields frank ]}
           = (Ok (), st') ∧
    (∃ m, MongoDBDatabase.find User {["name" := VStr "Eve"]} st'
            = (Ok (Some m), st') ∧ m !! oid_a = Some eve) ∧
    (∃ m, MongoDBDatabase.find User {["name" := VStr "Frank"]} st'
            = (Ok (Some m), st') ∧ m !! oid_a = None).
Proof.
  assert (Hst : stores_entities {[ ("User", oid_b) := fields frank ]} User).
  { apply (bool_decide_unpack _). vm_compute. reflexivity. }
  exists (snd (MongoDBDatabase.update eve {[ ("User", oid_b) := fields frank ]})).
  split; [reflexivity|]. split.
  - destruct (find_after_update eve {["name" := VStr "Eve"]} _ _ Hst eq_refl)
      as (m & Hfind & Hin & _).
    exists m. split; [exact Hfind|]. apply Hin.
    apply (bool_decide_unpack _). vm_compute. reflexivity.
  - destruct (find_after_update eve {["name" := VStr "Frank"]} _ _ Hst eq_refl)
      as (m & Hfind & _ & Hout).
    exists m. split; [exact Hfind|]. apply Hout.
    apply (bool_decide_eq_false_1 _). vm_compute. reflexivity.
Defined.
